(** * SNI extraction from a TLS ClientHello and the record splitter

    A shallow embedding of [src/tls.c]: the three nested parsers
    [parse_tls_header], [parse_extensions], [parse_server_name_extension]
    and the in-place mutator [modify_tls_header].

    Conventions of the embedding.
    - [uint8_t] is [Byte.byte]; its numeric value is [u8 b].
    - [size_t] is a 64-bit unsigned integer, carried as a [Z] in
      [0, 2^64); every arithmetic operation of the source is written with
      its wrap-around ([+s], [-s], [<<s]).
    - A [const uint8_t *] is a block of bytes and an offset into it;
      [data + n] moves the offset, [data[i]] is a checked [load] which is
      [None] outside the block.  A parser that performs such a load ends in
      [OutOfBounds].
    - The two [while] loops are unrolled by a fuel counter; running out of
      fuel is the distinct outcome [OutOfFuel].
    - The output parameters [*hostname] and [*modify_pos] are threaded as
      explicit state and returned next to the [int] result. *)

From Stdlib Require Import ZArith List Lia Bool.
From Stdlib Require Import Strings.Byte.
Import ListNotations.
Local Open Scope Z_scope.

(** ** Machine integers *)

Module Mach.

Definition SIZE_BITS : Z := 64.
Definition SIZE_MOD : Z := 2 ^ SIZE_BITS.

(** Conversion to [size_t]. *)
Definition size_t (z : Z) : Z := z mod SIZE_MOD.
(** Conversion to [uint16_t]. *)
Definition uint16_t (z : Z) : Z := z mod 65536.
(** Conversion of a [size_t] to [int] (32-bit two's complement). *)
Definition int_of_size (z : Z) : Z :=
  let w := z mod 2 ^ 32 in if w <? 2 ^ 31 then w else w - 2 ^ 32.

Definition add (a b : Z) : Z := size_t (a + b).
Definition sub (a b : Z) : Z := size_t (a - b).
Definition shl (a n : Z) : Z := size_t (Z.shiftl a n).

(** Numeric value of a byte, and the byte of the low eight bits. *)
Definition u8 (b : byte) : Z := Z.of_N (Byte.to_N b).
Definition to_byte (z : Z) : byte :=
  match Byte.of_N (Z.to_N (z mod 256)) with
  | Some b => b
  | None => x00
  end.

End Mach.
Import Mach.

Infix "+s" := Mach.add (at level 50, left associativity).
Infix "-s" := Mach.sub (at level 50, left associativity).
Infix "<<s" := Mach.shl (at level 35, no associativity).

(** The number of bytes of a list, as a [Z]. *)
Definition nbytes (l : list byte) : Z := Z.of_nat (length l).

(** ** Constants of the source *)

Definition TLS_HEADER_LEN : Z := 5.
Definition TLS_HANDSHAKE_CONTENT_TYPE : Z := 0x16.
Definition TLS_HANDSHAKE_TYPE_CLIENT_HELLO : Z := 0x01.
Definition MIN (x y : Z) : Z := if x <? y then x else y.

(** The result codes documented above [parse_tls_header]. *)
Definition Incomplete : Z := -1.
Definition NoHostname : Z := -2.
Definition InvalidHostnamePointer : Z := -3.
Definition AllocationFailure : Z := -4.
Definition Malformed : Z := -5.

(** ** Pointers into the input buffer *)

Record ptr : Type := mkptr { block : list byte; offset : Z }.

(** [data + n] *)
Definition ptr_add (p : ptr) (n : Z) : ptr := mkptr (block p) (offset p + n).

(** [data[i]]: the value of the byte, or [None] outside the block. *)
Definition load (p : ptr) (i : Z) : option Z :=
  let a := offset p + i in
  if a <? 0 then None
  else option_map u8 (nth_error (block p) (Z.to_nat a)).

(** The bytes from the pointer to the end of its block. *)
Definition bytes_from (p : ptr) : list byte :=
  if offset p <? 0 then [] else skipn (Z.to_nat (offset p)) (block p).

(** The [n] bytes of [l] starting at index [i]. *)
Definition slice (l : list byte) (i n : Z) : list byte :=
  firstn (Z.to_nat n) (skipn (Z.to_nat i) l).

(** A C string slot [char *]: [None] is [NULL], [Some bs] the bytes of the
    allocated block. *)
Definition cstring : Type := option (list byte).

(** How a run of a parser ends: with a read outside the block, without
    fuel, or by returning [ret] with [*hostname] and [*modify_pos] as the
    run left them ([hostname] is [None] too when there is no slot). *)
Inductive outcome : Type :=
| OutOfBounds
| OutOfFuel
| Returned (ret : Z) (hostname : cstring) (modify_pos : Z).

(** Read [data[i]] and continue; an access outside the block ends the run. *)
Definition with_byte (p : ptr) (i : Z) (k : Z -> outcome) : outcome :=
  match load p i with
  | Some v => k v
  | None => OutOfBounds
  end.

Notation "'let*' x ':=' p '[[' i ']]' 'in' k" :=
  (with_byte p i (fun x => k))
  (at level 10, x name, p at level 9, i at level 200, k at level 200).

(** [c && test(data[i])]: the right operand is read only when [c] holds. *)
Definition short_and (c : bool) (p : ptr) (i : Z) (test : Z -> bool)
    (k : bool -> outcome) : outcome :=
  if c then with_byte p i (fun v => k (test v)) else k false.

(** [strncpy(dst, src, n)]: the [n] bytes written to [dst]; copying stops
    after the first zero byte of [src] and the rest is filled with zeros.
    [None] when a byte would be read past the end of [src]. *)
Fixpoint strncpy (src : list byte) (n : nat) {struct n}
    : option (list byte) :=
  match n with
  | O => Some []
  | S n' =>
      match src with
      | [] => None
      | c :: rest =>
          if u8 c =? 0 then Some (repeat x00 n)
          else option_map (cons c) (strncpy rest n')
      end
  end.

(** ** The parsers *)

Section Parser.

(** [malloc n] succeeds or not; the parser calls it at most once. *)
Variable malloc : Z -> bool.

(** The loop of [parse_server_name_extension], lines 242-267. *)
Fixpoint server_name_loop (fuel : nat) (data : ptr) (data_len old_pos : Z)
    (pos : Z) (hostname : cstring) : outcome :=
  match fuel with
  | O => OutOfFuel
  | S fuel' =>
      if pos +s 3 <? data_len then
        let* hi := data [[ pos +s 1 ]] in
        let* lo := data [[ pos +s 2 ]] in
        let len := (hi <<s 8) +s lo in
        if pos +s 3 +s len >? data_len then Returned Malformed hostname 0
        else
          let* name_type := data [[ pos ]] in
          if name_type =? 0x00 then
            if malloc (len +s 1) then
              match strncpy (bytes_from (ptr_add (ptr_add data pos) 3))
                            (Z.to_nat len) with
              | Some copied =>
                  Returned (int_of_size len) (Some (copied ++ [x00]))
                           (pos +s 3 +s old_pos)
              | None => OutOfBounds
              end
            else Returned AllocationFailure None 0
          else
            server_name_loop fuel' data data_len old_pos
                             (pos +s (3 +s len)) hostname
      else if negb (pos =? data_len) then Returned Malformed hostname 0
      else Returned NoHostname hostname 0
  end.

Definition parse_server_name_extension (data : ptr) (data_len : Z)
    (hostname : cstring) (modify_pos : Z) : outcome :=
  let pos := 2 in
  let old_pos := modify_pos in
  server_name_loop (S (Z.to_nat data_len)) data data_len old_pos pos hostname.

(** The loop of [parse_extensions], lines 212-227. *)
Fixpoint extensions_loop (fuel : nat) (data : ptr) (data_len old_pos : Z)
    (pos : Z) (hostname : cstring) : outcome :=
  match fuel with
  | O => OutOfFuel
  | S fuel' =>
      if pos +s 4 <=? data_len then
        let* hi := data [[ pos +s 2 ]] in
        let* lo := data [[ pos +s 3 ]] in
        let len := (hi <<s 8) +s lo in
        let* t0 := data [[ pos ]] in
        short_and (t0 =? 0x00) data (pos +s 1) (fun t1 => t1 =? 0x00)
          (fun is_server_name =>
             if is_server_name then
               if pos +s 4 +s len >? data_len then
                 Returned Malformed hostname 0
               else
                 parse_server_name_extension
                   (ptr_add (ptr_add data pos) 4) len hostname
                   (pos +s 4 +s old_pos)
             else
               extensions_loop fuel' data data_len old_pos
                               (pos +s (4 +s len)) hostname)
      else if negb (pos =? data_len) then Returned Malformed hostname 0
      else Returned NoHostname hostname 0
  end.

Definition parse_extensions (data : ptr) (data_len : Z)
    (hostname : cstring) (modify_pos : Z) : outcome :=
  let pos := 0 in
  let old_pos := modify_pos in
  extensions_loop (S (Z.to_nat data_len)) data data_len old_pos pos hostname.

(** [parse_tls_header], lines 99-203.  [hostname] is the [char **]
    argument: [None] is a null pointer, [Some h] a slot holding [h]. *)
Definition parse_tls_header (data : ptr) (data_len : Z)
    (hostname : option cstring) (modify_pos : Z) : outcome :=
  let pos := TLS_HEADER_LEN in
  match hostname with
  | None => Returned InvalidHostnamePointer None modify_pos
  | Some h =>
  if data_len <? TLS_HEADER_LEN then Returned Incomplete h modify_pos else
  let* b0 := data [[ 0 ]] in
  short_and (negb (Z.land b0 0x80 =? 0)) data 2 (fun b2 => b2 =? 1)
    (fun ssl2_hello =>
  if ssl2_hello then Returned NoHostname h modify_pos else
  let* tls_content_type := data [[ 0 ]] in
  if negb (tls_content_type =? TLS_HANDSHAKE_CONTENT_TYPE) then
    Returned Malformed h modify_pos else
  let* tls_version_major := data [[ 1 ]] in
  let* tls_version_minor := data [[ 2 ]] in
  if tls_version_major <? 3 then Returned NoHostname h modify_pos else
  let* l3 := data [[ 3 ]] in
  let* l4 := data [[ 4 ]] in
  let len := (l3 <<s 8) +s l4 +s TLS_HEADER_LEN in
  let data_len := MIN data_len len in
  if data_len <? len then Returned Incomplete h modify_pos else
  if pos +s 1 >? data_len then Returned Malformed h modify_pos else
  let* hs_type := data [[ pos ]] in
  if negb (hs_type =? TLS_HANDSHAKE_TYPE_CLIENT_HELLO) then
    Returned Malformed h modify_pos else
  let pos := pos +s 38 in
  (* Session ID *)
  if pos +s 1 >? data_len then Returned Malformed h modify_pos else
  let* len := data [[ pos ]] in
  let pos := pos +s (1 +s len) in
  (* Cipher Suites *)
  if pos +s 2 >? data_len then Returned Malformed h modify_pos else
  let* hi := data [[ pos ]] in
  let* lo := data [[ pos +s 1 ]] in
  let len := (hi <<s 8) +s lo in
  let pos := pos +s (2 +s len) in
  (* Compression Methods *)
  if pos +s 1 >? data_len then Returned Malformed h modify_pos else
  let* len := data [[ pos ]] in
  let pos := pos +s (1 +s len) in
  if (pos =? data_len) && (tls_version_major =? 3)
     && (tls_version_minor =? 0) then
    Returned NoHostname h modify_pos else
  (* Extensions *)
  if pos +s 2 >? data_len then Returned Malformed h modify_pos else
  let* hi := data [[ pos ]] in
  let* lo := data [[ pos +s 1 ]] in
  let len := (hi <<s 8) +s lo in
  let pos := pos +s 2 in
  if pos +s len >? data_len then Returned Malformed h modify_pos else
  parse_extensions (ptr_add data pos) len h pos)
  end.

(** The protocol descriptor's [parse_packet] entry applied to a whole
    buffer: [data] points at its first byte. *)
Definition parse_packet (buf : list byte) (data_len : Z)
    (hostname : option cstring) (modify_pos : Z) : outcome :=
  parse_tls_header (mkptr buf 0) data_len hostname modify_pos.

End Parser.

(** ** The record splitter *)

Section Splitter.

(** Byte order of the host: [true] on a little-endian machine. *)
Variable little_endian : bool.

(** [htons]: a 16-bit value in network byte order. *)
Definition htons (x : Z) : Z :=
  let v := uint16_t x in
  if little_endian then (v mod 256) * 256 + v / 256 else v.

Definition in_range (mem : list byte) (a n : Z) : bool :=
  (0 <=? a) && (0 <=? n) && (a + n <=? nbytes mem).

(** Overwrite [mem] at address [a] with [bs]. *)
Definition write_bytes (mem : list byte) (a : Z) (bs : list byte)
    : option (list byte) :=
  if in_range mem a (nbytes bs) then
    Some (firstn (Z.to_nat a) mem ++ bs
            ++ skipn (Z.to_nat (a + nbytes bs)) mem)
  else None.

(** [memmove(data + dst, data + src, n)]: the regions may overlap. *)
Definition memmove (mem : list byte) (dst src n : Z) : option (list byte) :=
  if in_range mem src n then write_bytes mem dst (slice mem src n)
  else None.

(** [memcpy(data + dst, data + src, n)]: overlapping regions are
    undefined. *)
Definition memcpy (mem : list byte) (dst src n : Z) : option (list byte) :=
  if (dst + n <=? src) || (src + n <=? dst) then memmove mem dst src n
  else None.

(** [*(uint16_t * )(data + a) = v] in the byte order of the host. *)
Definition store_u16 (mem : list byte) (a v : Z) : option (list byte) :=
  let lo := to_byte v in
  let hi := to_byte (v / 256) in
  write_bytes mem a (if little_endian then [lo; hi] else [hi; lo]).

Definition bind {A B : Type} (o : option A) (k : A -> option B)
    : option B :=
  match o with Some a => k a | None => None end.

(** [modify_tls_header], lines 73-84, on the memory [mem] that [data]
    points to; [None] when an access leaves [mem].  [hostname] is only
    logged. *)
Definition modify_tls_header (mem : list byte) (data_len : Z)
    (hostname : cstring) (modify_pos : Z) : option (list byte) :=
  let data := mkptr mem 0 in
  let sni_split_pos := modify_pos +s 1 in
  bind (memmove mem (5 + sni_split_pos) sni_split_pos
                (data_len -s 5 -s sni_split_pos)) (fun mem =>
  bind (memcpy mem sni_split_pos 0 5) (fun mem =>
  let data := mkptr mem 0 in
  let part1_len := sni_split_pos -s 5 in
  bind (load data 3) (fun d3 =>
  bind (load data 4) (fun d4 =>
  let record_length := uint16_t (Z.shiftl d3 8 + d4) in
  let part2_len := record_length -s part1_len in
  bind (store_u16 mem 3 (htons part1_len)) (fun mem =>
  store_u16 mem (sni_split_pos + 3) (htons part2_len)))))).

End Splitter.

(** ** The wire format, as the specification describes it *)

Module Wire.

Definition be16 (n : Z) : list byte := [to_byte (n / 256); to_byte n].
Definition be24 (n : Z) : list byte :=
  [to_byte (n / 65536); to_byte (n / 256); to_byte n].

(** A field with a one-byte, respectively two-byte, length prefix. *)
Definition vec8 (l : list byte) : list byte := to_byte (nbytes l) :: l.
Definition vec16 (l : list byte) : list byte := be16 (nbytes l) ++ l.

(** An extension: two-byte type, two-byte length, body. *)
Definition extension (type : Z) (body : list byte) : list byte :=
  be16 type ++ vec16 body.

(** One entry of the server name list, and the SNI extension (type 0)
    carrying a single [host_name] entry. *)
Definition name_entry (name_type : byte) (name : list byte) : list byte :=
  name_type :: vec16 name.
Definition sni_extension (name : list byte) : list byte :=
  extension 0 (vec16 (name_entry x00 name)).

(** The ClientHello fields up to the compression methods, followed by
    [rest] (nothing, or the extensions block). *)
Definition client_hello (version random session_id cipher_suites
    compression rest : list byte) : list byte :=
  version ++ random ++ vec8 session_id ++ vec16 cipher_suites
    ++ vec8 compression ++ rest.

(** A handshake message: type, 24-bit length, body. *)
Definition handshake (msg_type : byte) (body : list byte) : list byte :=
  msg_type :: be24 (nbytes body) ++ body.

(** A TLS record: content type, version, 16-bit length, payload. *)
Definition record (content_type vmajor vminor : byte)
    (payload : list byte) : list byte :=
  content_type :: vmajor :: vminor :: be16 (nbytes payload) ++ payload.

(** The 16-bit big-endian number at index [i] of [l]. *)
Definition read_be16 (l : list byte) (i : Z) : Z :=
  u8 (nth (Z.to_nat i) l x00) * 256 + u8 (nth (Z.to_nat (i + 1)) l x00).

End Wire.
Import Wire.

(** ** Sample inputs *)

Module Samples.

Definition random32 : list byte := repeat x2a 32.
Definition example_com : list byte :=
  [x65; x78; x61; x6d; x70; x6c; x65; x2e; x63; x6f; x6d].

(** A TLS 1.2 ClientHello with one cipher suite, null compression and
    the extensions block [exts]. *)
Definition hello12 (exts : list byte) : list byte :=
  record x16 x03 x01
    (handshake x01
       (client_hello [x03; x03] random32 [] [x00; x2f] [x00] (vec16 exts))).

Definition hello_example_com : list byte :=
  hello12 (extension 0x000a [x00; x02; x00; x17] ++ sni_extension example_com).

(** The same with a name that contains a zero byte. *)
Definition hello_nul : list byte :=
  hello12 (sni_extension [x61; x00; x62]).

(** The same with the one-byte name [a], the last byte of the record. *)
Definition hello_short : list byte := hello12 (sni_extension [x61]).

End Samples.
Import Samples.

(** ** Predicates and views used to state the properties *)

(** The byte value at absolute index [i] of a buffer. *)
Definition byte_at (buf : list byte) (i : Z) : option Z := load (mkptr buf 0) i.

(** The bytes of [l] before its first zero byte. *)
Fixpoint c_prefix (l : list byte) : list byte :=
  match l with
  | [] => []
  | c :: rest => if u8 c =? 0 then [] else c :: c_prefix rest
  end.

(** The five negative result codes. *)
Definition failure (r : Z) : Prop :=
  r = Incomplete \/ r = NoHostname \/ r = InvalidHostnamePointer
  \/ r = AllocationFailure \/ r = Malformed.

(** A [host_name] entry of [r] name bytes starts at index [m - 3] of
    [buf], lies inside [lo, hi), and [h] holds its copy. *)
Definition hostname_at (buf : list byte) (lo hi : Z) (r : Z) (h : cstring)
    (m : Z) : Prop :=
  0 <= r <= 65535 /\ lo + 3 <= m /\ m < hi /\ m + r <= hi /\
  byte_at buf (m - 3) = Some 0 /\
  (exists b1 b2, byte_at buf (m - 2) = Some b1 /\
                 byte_at buf (m - 1) = Some b2 /\ r = b1 * 256 + b2) /\
  exists copied,
    strncpy (skipn (Z.to_nat m) buf) (Z.to_nat r) = Some copied /\
    h = Some (copied ++ [x00]).

(** The run returned: with a failure code, or with the hostname found
    inside [lo, hi). *)
Definition parsed (buf : list byte) (lo hi : Z) (o : outcome) : Prop :=
  match o with
  | Returned r h m => failure r \/ hostname_at buf lo hi r h m
  | OutOfBounds | OutOfFuel => False
  end.

(** The value of byte [i] of a buffer (zero past its end). *)
Definition nth_byte (buf : list byte) (i : nat) : Z := u8 (nth i buf x00).

(** The declared length and the payload of the record that starts at
    index [i]. *)
Definition record_length (l : list byte) (i : Z) : Z := read_be16 l (i + 3).
Definition record_payload (l : list byte) (i : Z) : list byte :=
  slice l (i + 5) (record_length l i).

(** An SSL 3.0 record holding a ClientHello whose compression methods are
    followed by [rest]. *)
Definition sslv3_hello (version random session_id cipher_suites compression
    rest : list byte) : list byte :=
  record x16 x03 x00
    (handshake x01
       (client_hello version random session_id cipher_suites compression
          rest)).

(** How a run that was given the hostname slot content [h0] and the
    modify-position [mp] can return: with a failure that leaves the slot as
    it was, with an allocation failure that leaves it [NULL], or with a
    hostname of [r] bytes in a block of [r + 1] bytes that [malloc]
    granted. *)
Definition returned_as (malloc : Z -> bool) (h0 : cstring) (mp : Z)
    (r : Z) (h : cstring) (m : Z) : Prop :=
  ((r = Incomplete \/ r = NoHostname \/ r = Malformed)
   /\ h = h0 /\ (m = mp \/ m = 0))
  \/ (r = AllocationFailure /\ h = None /\ m = 0
      /\ exists n, 1 <= n <= 65536 /\ malloc n = false)
  \/ (0 <= r <= 65535 /\ malloc (r + 1) = true
      /\ exists bs, h = Some bs /\ nbytes bs = r + 1).

(** What the splitter leaves of a two-byte record followed by twenty zero
    bytes when the split point, [10 + 1], lies beyond the record. *)
Definition split_beyond_record : list byte :=
  match modify_tls_header true
          (record x16 x03 x01 [x01; x02] ++ repeat x00 20) 27 None 10 with
  | Some mem => mem
  | None => []
  end.


(** A record of version [vmajor.vminor] holding a ClientHello whose
    compression methods are followed by [rest]. *)
Definition hello_record (vmajor vminor : byte) (version random session_id
    cipher_suites compression rest : list byte) : list byte :=
  record x16 vmajor vminor
    (handshake x01
       (client_hello version random session_id cipher_suites compression
          rest)).

(** The sizes that the length prefixes of a ClientHello can express. *)
Definition hello_fields_ok (version random session_id cipher_suites
    compression : list byte) : Prop :=
  nbytes version = 2 /\ nbytes random = 32 /\ nbytes session_id <= 255
  /\ nbytes cipher_suites <= 65535 /\ nbytes compression <= 255.


(** The index at which a ClientHello record's extensions block starts,
    after its two length bytes. *)
Definition extensions_start (session_id cipher_suites compression
    : list byte) : Z :=
  43 + (1 + nbytes session_id) + (2 + nbytes cipher_suites)
  + (1 + nbytes compression) + 2.

(** * Properties *)

(** ** Machine arithmetic without wrap-around *)

Lemma u8_range (b : byte) : 0 <= u8 b <= 255.
Proof.
  unfold u8. pose proof (Byte.to_N_bounded b). lia.
Qed.

Lemma u8_to_byte (z : Z) : u8 (to_byte z) = z mod 256.
Proof.
  unfold u8, to_byte.
  assert (Hr : 0 <= z mod 256 < 256) by (apply Z.mod_pos_bound; lia).
  destruct (Byte.of_N (Z.to_N (z mod 256))) as [b|] eqn:E.
  - apply Byte.to_of_N in E. rewrite E. lia.
  - pose proof (Byte.to_of_N_option_map (Z.to_N (z mod 256))) as H.
    rewrite E in H. simpl in H.
    destruct (N.leb_spec (Z.to_N (z mod 256)) 255); [discriminate | lia].
Qed.

Lemma to_byte_u8 (b : byte) : to_byte (u8 b) = b.
Proof.
  unfold to_byte. pose proof (u8_range b).
  rewrite Z.mod_small by lia. unfold u8. rewrite N2Z.id.
  now rewrite Byte.of_to_N.
Qed.

Lemma u8_inj (a b : byte) : u8 a = u8 b -> a = b.
Proof.
  intros H. rewrite <- (to_byte_u8 a), <- (to_byte_u8 b). now rewrite H.
Qed.

Lemma size_mod_eq : SIZE_MOD = 18446744073709551616.
Proof. reflexivity. Qed.

Lemma add_small (a b : Z) : 0 <= a + b < 2 ^ 40 -> a +s b = a + b.
Proof.
  intros H. unfold Mach.add, size_t. rewrite size_mod_eq.
  apply Z.mod_small. lia.
Qed.

Lemma sub_small (a b : Z) : 0 <= a - b < 2 ^ 40 -> a -s b = a - b.
Proof.
  intros H. unfold Mach.sub, size_t. rewrite size_mod_eq.
  apply Z.mod_small. lia.
Qed.

Lemma shl8_small (a : Z) : 0 <= a <= 255 -> a <<s 8 = a * 256.
Proof.
  intros H. unfold Mach.shl, size_t. rewrite size_mod_eq.
  rewrite Z.shiftl_mul_pow2 by lia. change (2 ^ 8) with 256.
  apply Z.mod_small. lia.
Qed.

Lemma int_of_size_small (z : Z) : 0 <= z < 2 ^ 31 -> int_of_size z = z.
Proof.
  intros H. unfold int_of_size. rewrite Z.mod_small by lia.
  destruct (Z.ltb_spec z (2 ^ 31)); lia.
Qed.

(** Rewrite the wrapping operations of the goal into exact ones wherever
    the operands are known to be small. *)
Ltac nowrap_step :=
  match goal with
  | |- context [ ?a <<s 8 ] => rewrite (shl8_small a) by lia
  | |- context [ ?a +s ?b ] => rewrite (add_small a b) by lia
  | |- context [ ?a -s ?b ] => rewrite (sub_small a b) by lia
  end.
Ltac nowrap := repeat nowrap_step.

(** ** Loads *)

Lemma nbytes_nonneg (l : list byte) : 0 <= nbytes l.
Proof. unfold nbytes. lia. Qed.

Lemma nbytes_app (l1 l2 : list byte) : nbytes (l1 ++ l2) = nbytes l1 + nbytes l2.
Proof. unfold nbytes. rewrite length_app. lia. Qed.

Lemma load_byte_at (p : ptr) (i : Z) :
  load p i = byte_at (block p) (offset p + i).
Proof. reflexivity. Qed.

Lemma byte_at_in_range (buf : list byte) (i : Z) :
  0 <= i < nbytes buf ->
  exists b, byte_at buf i = Some (u8 b) /\ nth_error buf (Z.to_nat i) = Some b.
Proof.
  intros H. unfold byte_at, load. simpl.
  destruct (Z.ltb_spec i 0); [lia|].
  destruct (nth_error buf (Z.to_nat i)) as [b|] eqn:E.
  - exists b. auto.
  - apply nth_error_None in E. unfold nbytes in H. lia.
Qed.

Lemma byte_at_Some (buf : list byte) (i v : Z) :
  byte_at buf i = Some v -> 0 <= i < nbytes buf /\ 0 <= v <= 255.
Proof.
  unfold byte_at, load. simpl.
  destruct (Z.ltb_spec i 0); [discriminate|].
  destruct (nth_error buf (Z.to_nat i)) as [b|] eqn:E; [|discriminate].
  simpl. intros [= <-]. split; [|apply u8_range].
  assert (Z.to_nat i < length buf)%nat by (apply nth_error_Some; congruence).
  unfold nbytes. lia.
Qed.

(** The rule for a checked read: inside the block the run continues with
    the value of the byte. *)
Lemma with_byte_elim (Q : outcome -> Prop) (p : ptr) (i : Z) (k : Z -> outcome) :
  0 <= offset p + i < nbytes (block p) ->
  (forall v, byte_at (block p) (offset p + i) = Some v -> 0 <= v <= 255 -> Q (k v)) ->
  Q (with_byte p i k).
Proof.
  intros Hr Hk. unfold with_byte. rewrite load_byte_at.
  destruct (byte_at_in_range (block p) _ Hr) as (b & Hb & _).
  rewrite Hb. apply Hk; [exact Hb | apply u8_range].
Qed.

Lemma short_and_elim (Q : outcome -> Prop) (c : bool) (p : ptr) (i : Z)
    (test : Z -> bool) (k : bool -> outcome) :
  (c = true -> 0 <= offset p + i < nbytes (block p)) ->
  (forall v, c = true -> byte_at (block p) (offset p + i) = Some v ->
             0 <= v <= 255 -> Q (k (test v))) ->
  (c = false -> Q (k false)) ->
  Q (short_and c p i test k).
Proof.
  intros Hr Ht Hf. unfold short_and. destruct c.
  - apply with_byte_elim; auto.
  - auto.
Qed.

(** ** [strncpy] *)

Lemma c_prefix_length (l : list byte) : (length (c_prefix l) <= length l)%nat.
Proof.
  induction l as [|c l IH]; simpl; [lia|].
  destruct (u8 c =? 0); simpl; lia.
Qed.

Lemma c_prefix_no_nul (l : list byte) :
  Forall (fun b => b <> x00) l -> c_prefix l = l.
Proof.
  induction 1 as [|c l Hc _ IH]; simpl; [reflexivity|].
  destruct (Z.eqb_spec (u8 c) 0) as [E|_].
  - exfalso. apply Hc. apply u8_inj. exact E.
  - now rewrite IH.
Qed.

(** [strncpy] copies the C string held in the first [n] bytes of the
    source and pads it with zero bytes up to [n]. *)
Lemma strncpy_spec (n : nat) : forall src,
  (n <= length src)%nat ->
  strncpy src n =
  Some (c_prefix (firstn n src)
          ++ repeat x00 (n - length (c_prefix (firstn n src)))).
Proof.
  induction n as [|n IH]; intros src Hn; [now destruct src|].
  destruct src as [|c rest]; [simpl in Hn; lia|].
  simpl in Hn. cbn [strncpy firstn c_prefix].
  destruct (u8 c =? 0).
  - reflexivity.
  - rewrite IH by lia. reflexivity.
Qed.

(** ** What a run of the parser establishes *)

Lemma parsed_weaken (buf : list byte) (lo hi lo' hi' : Z) (o : outcome) :
  lo' <= lo -> hi <= hi' -> parsed buf lo hi o -> parsed buf lo' hi' o.
Proof.
  intros Hlo Hhi. destruct o as [| |r h m]; simpl; auto.
  intros [F|(Hr & H1 & H2 & H3 & H4)]; [left; exact F|right].
  unfold hostname_at. repeat split; try lia; try tauto.
Qed.

Lemma parsed_failure (buf : list byte) (lo hi r : Z) (h : cstring) (m : Z) :
  failure r -> parsed buf lo hi (Returned r h m).
Proof. intros F. left. exact F. Qed.

Create HintDb codes.
#[local] Hint Unfold failure Incomplete NoHostname InvalidHostnamePointer
  AllocationFailure Malformed : codes.

Ltac fails := apply parsed_failure; autounfold with codes; tauto.
Ltac case_if :=
  match goal with
  | |- parsed _ _ _ (if ?c then _ else _) => destruct c eqn:?
  end.
Ltac case_lt :=
  match goal with
  | |- parsed _ _ _ (if ?a <? ?b then _ else _) =>
      destruct (Z.ltb_spec a b)
  | |- parsed _ _ _ (if ?a >? ?b then _ else _) =>
      rewrite (Z.gtb_ltb a b); destruct (Z.ltb_spec b a)
  end.
Ltac read_byte v Hv Rv :=
  apply with_byte_elim; [cbn [offset block]; lia|];
  cbn [offset block]; intros v Hv Rv; cbv beta.

Section ParserSpec.

Variable malloc : Z -> bool.

Lemma server_name_loop_parsed (fuel : nat) :
  forall data data_len old_pos pos hostname,
  0 <= offset data <= 2 ^ 20 -> old_pos = offset data ->
  0 <= data_len <= 65535 ->
  offset data + data_len <= nbytes (block data) ->
  0 <= pos <= 2 ^ 20 ->
  Z.max 0 (data_len - pos) < Z.of_nat fuel ->
  parsed (block data) (offset data + pos) (offset data + data_len)
         (server_name_loop malloc fuel data data_len old_pos pos hostname).
Proof.
  induction fuel as [|fuel IH];
    intros data data_len old_pos pos hostname Hoff Hold Hlen Hblk Hpos Hfuel.
  { lia. }
  cbn [server_name_loop]. nowrap.
  destruct (Z.ltb_spec (pos + 3) data_len) as [Hin|Hout].
  - apply with_byte_elim; [lia|]. intros hi Hhi Rhi.
    apply with_byte_elim; [lia|]. intros lo Hlo Rlo.
    cbv zeta. nowrap. rewrite Z.gtb_ltb.
    destruct (Z.ltb_spec data_len (pos + 3 + (hi * 256 + lo))) as [|Hfit];
      [fails|].
    apply with_byte_elim; [lia|]. intros ty Hty Rty.
    destruct (Z.eqb_spec ty 0) as [->|Hne].
    + destruct (malloc _); [|fails].
      unfold bytes_from; cbn [ptr_add offset block].
      destruct (Z.ltb_spec (offset data + pos + 3) 0); [lia|].
      rewrite strncpy_spec
        by (rewrite length_skipn; unfold nbytes in Hblk; lia).
      rewrite int_of_size_small by lia.
      right. unfold hostname_at. subst old_pos.
      replace (pos + 3 + offset data - 3) with (offset data + pos) by lia.
      replace (pos + 3 + offset data - 2) with (offset data + (pos + 1)) by lia.
      replace (pos + 3 + offset data - 1) with (offset data + (pos + 2)) by lia.
      replace (pos + 3 + offset data) with (offset data + pos + 3) by lia.
      repeat split; try lia; try assumption.
      * exists hi, lo. auto.
      * eexists. split; [|reflexivity].
        apply strncpy_spec. rewrite length_skipn.
        unfold nbytes in Hblk. lia.
    + eapply parsed_weaken; [| |apply IH]; try lia; auto.
  - destruct (Z.eqb_spec pos data_len); simpl; fails.
Qed.

Lemma parse_server_name_extension_parsed (data : ptr) (data_len : Z)
    (hostname : cstring) (modify_pos : Z) :
  0 <= offset data <= 2 ^ 20 -> modify_pos = offset data ->
  0 <= data_len <= 65535 ->
  offset data + data_len <= nbytes (block data) ->
  parsed (block data) (offset data + 2) (offset data + data_len)
         (parse_server_name_extension malloc data data_len hostname
                                      modify_pos).
Proof.
  intros Hoff Hmp Hlen Hblk. unfold parse_server_name_extension.
  apply server_name_loop_parsed; auto; lia.
Qed.

Lemma extensions_loop_parsed (fuel : nat) :
  forall data data_len old_pos pos hostname,
  0 <= offset data <= 2 ^ 19 -> old_pos = offset data ->
  0 <= data_len <= 65535 ->
  offset data + data_len <= nbytes (block data) ->
  0 <= pos <= 2 ^ 18 ->
  Z.max 0 (data_len - pos) < Z.of_nat fuel ->
  parsed (block data) (offset data + pos) (offset data + data_len)
         (extensions_loop malloc fuel data data_len old_pos pos hostname).
Proof.
  induction fuel as [|fuel IH];
    intros data data_len old_pos pos hostname Hoff Hold Hlen Hblk Hpos Hfuel.
  { lia. }
  cbn [extensions_loop]. nowrap.
  destruct (Z.leb_spec (pos + 4) data_len) as [Hin|Hout].
  - apply with_byte_elim; [lia|]. intros hi Hhi Rhi.
    apply with_byte_elim; [lia|]. intros lo Hlo Rlo.
    cbv zeta. nowrap.
    apply with_byte_elim; [lia|]. intros t0 Ht0 Rt0.
    assert (Hnext :
      parsed (block data) (offset data + pos) (offset data + data_len)
        (extensions_loop malloc fuel data data_len old_pos
           (pos + (4 + (hi * 256 + lo))) hostname)).
    { eapply parsed_weaken; [| |apply IH]; try lia; auto. }
    apply short_and_elim; [lia| |intros _; exact Hnext].
    intros t1 _ Ht1 Rt1. destruct (t1 =? 0); [|exact Hnext].
    rewrite Z.gtb_ltb.
    destruct (Z.ltb_spec data_len (pos + 4 + (hi * 256 + lo))) as [|Hfit];
      [fails|].
    subst old_pos.
    pose proof (parse_server_name_extension_parsed
                  (ptr_add (ptr_add data pos) 4) (hi * 256 + lo) hostname
                  (pos + 4 + offset data)) as Hsni.
    cbn [ptr_add offset block] in Hsni |- *.
    eapply parsed_weaken; [| |apply Hsni]; lia.
  - destruct (Z.eqb_spec pos data_len); simpl; fails.
Qed.

Lemma parse_extensions_parsed (data : ptr) (data_len : Z)
    (hostname : cstring) (modify_pos : Z) :
  0 <= offset data <= 2 ^ 19 -> modify_pos = offset data ->
  0 <= data_len <= 65535 ->
  offset data + data_len <= nbytes (block data) ->
  parsed (block data) (offset data) (offset data + data_len)
         (parse_extensions malloc data data_len hostname modify_pos).
Proof.
  intros Hoff Hmp Hlen Hblk. unfold parse_extensions.
  eapply parsed_weaken; [| |apply extensions_loop_parsed]; auto; lia.
Qed.

Lemma byte_at_nth (buf : list byte) (i v : Z) :
  byte_at buf i = Some v -> v = u8 (nth (Z.to_nat i) buf x00).
Proof.
  intros H. pose proof (byte_at_Some _ _ _ H) as [Hi _].
  destruct (byte_at_in_range buf i Hi) as (b & Hb & Hn).
  rewrite H in Hb. injection Hb as ->.
  now rewrite (nth_error_nth _ _ x00 Hn).
Qed.

Lemma read_be16_byte_at (buf : list byte) (i a b : Z) :
  byte_at buf i = Some a -> byte_at buf (i + 1) = Some b ->
  read_be16 buf i = a * 256 + b.
Proof.
  intros Ha Hb. unfold read_be16.
  now rewrite <- (byte_at_nth _ _ _ Ha), <- (byte_at_nth _ _ _ Hb).
Qed.

(** The whole parser: it returns, and a hostname it reports lies in the
    record, after its header and before its declared end. *)
Lemma parse_tls_header_parsed (buf : list byte) (data_len : Z)
    (hostname : option cstring) (modify_pos : Z) :
  data_len <= nbytes buf ->
  parsed buf 5 (Z.min data_len (5 + read_be16 buf 3))
         (parse_tls_header malloc (mkptr buf 0) data_len hostname
                           modify_pos).
Proof.
  intros Hbuf. unfold parse_tls_header, TLS_HEADER_LEN,
    TLS_HANDSHAKE_CONTENT_TYPE, TLS_HANDSHAKE_TYPE_CLIENT_HELLO.
  destruct hostname as [h|]; [|fails].
  destruct (Z.ltb_spec data_len 5) as [|H5]; [fails|].
  apply with_byte_elim; [simpl; lia|]. intros b0 _ _.
  apply short_and_elim;
    [simpl; lia
    |intros b2 _ _ _; cbv beta; case_if; [fails|]
    |intros _; cbv beta iota].
  all: apply with_byte_elim; [simpl; lia|]; intros ct _ _;
    case_if; [fails|];
    apply with_byte_elim; [simpl; lia|]; intros vmaj _ _;
    apply with_byte_elim; [simpl; lia|]; intros vmin _ _;
    case_if; [fails|];
    apply with_byte_elim; [simpl; lia|]; intros l3 Hl3 R3;
    apply with_byte_elim; [simpl; lia|]; intros l4 Hl4 R4;
    simpl in Hl3, Hl4;
    rewrite (read_be16_byte_at buf 3 l3 l4 Hl3 Hl4);
    cbv zeta; nowrap; unfold MIN;
    destruct (Z.ltb_spec data_len (l3 * 256 + l4 + 5)) as [Hshort|Hfull];
    [rewrite (proj2 (Z.ltb_lt _ _) Hshort); fails|];
    rewrite Z.ltb_irrefl;
    rewrite !Z.gtb_ltb;
    set (rec_end := l3 * 256 + l4 + 5) in *;
    case_lt; [fails|];
    read_byte hs Hhs Rhs; case_if; [fails|];
    case_lt; [fails|];
    read_byte sid Hsid Rsid; nowrap;
    case_lt; [fails|];
    read_byte chi Hchi Rchi; read_byte clo Hclo Rclo; nowrap;
    set (p2 := 5 + 38 + (1 + sid) + (2 + (chi * 256 + clo))) in *;
    case_lt; [fails|];
    read_byte cm Hcm Rcm; nowrap;
    case_if; [fails|];
    case_lt; [fails|];
    read_byte ehi Hehi Rehi; read_byte elo Helo Relo; nowrap;
    case_lt; [fails|];
    subst rec_end p2;
    pose proof (parse_extensions_parsed
                  (ptr_add (mkptr buf 0)
                     (5 + 38 + (1 + sid) + (2 + (chi * 256 + clo))
                      + (1 + cm) + 2))
                  (ehi * 256 + elo) h
                  (5 + 38 + (1 + sid) + (2 + (chi * 256 + clo))
                   + (1 + cm) + 2)) as Hext;
    cbn [ptr_add offset block] in Hext |- *;
    (eapply parsed_weaken; [| |apply Hext]); lia.
Qed.

End ParserSpec.

(** ** Fuel

    A loop that returns with some fuel returns the same with more: the
    fuel the parsers start with only has to be enough. *)

Ltac fuel_cases IH :=
  repeat match goal with
         | |- context [ match load ?p ?i with _ => _ end ] =>
             destruct (load p i)
         | |- context [ match strncpy ?s ?n with _ => _ end ] =>
             destruct (strncpy s n)
         | |- context [ if ?c then _ else _ ] => destruct c
         end;
  try (intros; discriminate); try exact (fun H => H);
  try (intros H; eapply IH; [exact H|lia]).

Lemma server_name_loop_fuel (malloc : Z -> bool) (f : nat) :
  forall f' data data_len old_pos pos hostname r h m,
  server_name_loop malloc f data data_len old_pos pos hostname
    = Returned r h m ->
  (f <= f')%nat ->
  server_name_loop malloc f' data data_len old_pos pos hostname
    = Returned r h m.
Proof.
  induction f as [|f IH];
    intros f' data data_len old_pos pos hostname r h m Hrun Hle;
    [discriminate|].
  destruct f' as [|f']; [lia|].
  revert Hrun. cbn [server_name_loop]. unfold with_byte.
  fuel_cases IH.
Qed.

Lemma extensions_loop_fuel (malloc : Z -> bool) (f : nat) :
  forall f' data data_len old_pos pos hostname r h m,
  extensions_loop malloc f data data_len old_pos pos hostname
    = Returned r h m ->
  (f <= f')%nat ->
  extensions_loop malloc f' data data_len old_pos pos hostname
    = Returned r h m.
Proof.
  induction f as [|f IH];
    intros f' data data_len old_pos pos hostname r h m Hrun Hle;
    [discriminate|].
  destruct f' as [|f']; [lia|].
  revert Hrun. cbn [extensions_loop]. unfold short_and, with_byte.
  fuel_cases IH.
Qed.

(** ** Bytes past the end do not matter

    A run that returns on a block returns the same on any longer block
    with the same bytes: what lies past the end was never read. *)

Lemma load_extend (b e : list byte) (off i v : Z) :
  load (mkptr b off) i = Some v -> load (mkptr (b ++ e) off) i = Some v.
Proof.
  unfold load. cbn [offset block].
  destruct (off + i <? 0); [discriminate|].
  destruct (nth_error b (Z.to_nat (off + i))) as [x|] eqn:E; [|discriminate].
  rewrite nth_error_app1 by (apply nth_error_Some; congruence).
  now rewrite E.
Qed.

Lemma with_byte_extend (b e : list byte) (off i : Z) (k k' : Z -> outcome)
    (r : Z) (h : cstring) (m : Z) :
  with_byte (mkptr b off) i k = Returned r h m ->
  (forall v, k v = Returned r h m -> k' v = Returned r h m) ->
  with_byte (mkptr (b ++ e) off) i k' = Returned r h m.
Proof.
  unfold with_byte. intros H Hk.
  destruct (load (mkptr b off) i) as [v|] eqn:E; [|discriminate].
  rewrite (load_extend _ e _ _ _ E). auto.
Qed.

Lemma short_and_extend (c : bool) (b e : list byte) (off i : Z)
    (test : Z -> bool) (k k' : bool -> outcome) (r : Z) (h : cstring)
    (m : Z) :
  short_and c (mkptr b off) i test k = Returned r h m ->
  (forall t, k t = Returned r h m -> k' t = Returned r h m) ->
  short_and c (mkptr (b ++ e) off) i test k' = Returned r h m.
Proof.
  unfold short_and. intros H Hk. destruct c; [|auto].
  eapply with_byte_extend; [exact H|]. intros v. apply Hk.
Qed.

Lemma strncpy_extend (n : nat) : forall src e copied,
  strncpy src n = Some copied -> strncpy (src ++ e) n = Some copied.
Proof.
  induction n as [|n IH]; intros src e copied H; [exact H|].
  destruct src as [|c rest]; [discriminate|].
  cbn [strncpy app] in *. destruct (u8 c =? 0); [exact H|].
  destruct (strncpy rest n) as [t|] eqn:E; [|discriminate].
  now rewrite (IH _ e _ E).
Qed.

Lemma bytes_from_extend (b e : list byte) (off : Z) :
  exists e', bytes_from (mkptr (b ++ e) off) = bytes_from (mkptr b off) ++ e'.
Proof.
  unfold bytes_from. cbn [offset block].
  destruct (off <? 0); [now exists []|].
  rewrite skipn_app. eauto.
Qed.

Ltac extend_step :=
  match goal with
  | H : with_byte _ _ _ = Returned _ _ _ |- _ =>
      eapply with_byte_extend; [exact H|]; clear H; intros ? H;
      cbv beta in H |- *
  | H : short_and _ _ _ _ _ = Returned _ _ _ |- _ =>
      eapply short_and_extend; [exact H|]; clear H; intros ? H;
      cbv beta in H |- *
  | H : (if ?c then _ else _) = Returned _ _ _ |- _ => destruct c
  | H : ?x = Returned _ _ _ |- ?x = Returned _ _ _ => exact H
  end.

Section Extend.

Variable malloc : Z -> bool.

Lemma server_name_loop_extend (fuel : nat) :
  forall b e off data_len old_pos pos hostname r h m,
  server_name_loop malloc fuel (mkptr b off) data_len old_pos pos hostname
    = Returned r h m ->
  server_name_loop malloc fuel (mkptr (b ++ e) off) data_len old_pos pos
                   hostname
    = Returned r h m.
Proof.
  induction fuel as [|fuel IH];
    intros b e off data_len old_pos pos hostname r h m H; [discriminate|].
  cbn [server_name_loop] in H |- *. cbv zeta in H |- *.
  repeat extend_step.
  - unfold ptr_add in H |- *. cbn [offset block] in H |- *.
    destruct (bytes_from_extend b e (off + pos + 3)) as (e' & ->).
    destruct (strncpy (bytes_from (mkptr b (off + pos + 3))) _)
      as [copied|] eqn:E; [|discriminate].
    now rewrite (strncpy_extend _ _ e' _ E).
  - now apply IH.
Qed.

Lemma extensions_loop_extend (fuel : nat) :
  forall b e off data_len old_pos pos hostname r h m,
  extensions_loop malloc fuel (mkptr b off) data_len old_pos pos hostname
    = Returned r h m ->
  extensions_loop malloc fuel (mkptr (b ++ e) off) data_len old_pos pos
                  hostname
    = Returned r h m.
Proof.
  induction fuel as [|fuel IH];
    intros b e off data_len old_pos pos hostname r h m H; [discriminate|].
  cbn [extensions_loop] in H |- *. cbv zeta in H |- *.
  repeat extend_step.
  - unfold parse_server_name_extension, ptr_add in H |- *.
    cbn [offset block] in H |- *.
    now apply server_name_loop_extend.
  - now apply IH.
Qed.

Lemma parse_tls_header_extend (b e : list byte) (data_len : Z)
    (hostname : option cstring) (mp r : Z) (h : cstring) (m : Z) :
  parse_tls_header malloc (mkptr b 0) data_len hostname mp = Returned r h m ->
  parse_tls_header malloc (mkptr (b ++ e) 0) data_len hostname mp
    = Returned r h m.
Proof.
  unfold parse_tls_header. intros H. cbv zeta in H |- *.
  destruct hostname as [h0|]; [|exact H].
  repeat extend_step.
  unfold parse_extensions, ptr_add in H |- *. cbn [offset block] in H |- *.
  now apply extensions_loop_extend.
Qed.

End Extend.

(** ** The record header checks *)

Lemma with_byte_at (buf : list byte) (i : Z) (k : Z -> outcome) :
  0 <= i < nbytes buf ->
  with_byte (mkptr buf 0) i k = k (nth_byte buf (Z.to_nat i)).
Proof.
  intros Hi. unfold with_byte. rewrite load_byte_at. cbn [offset block].
  destruct (byte_at_in_range buf i Hi) as (b & Hb & Hn).
  rewrite Z.add_0_l, Hb. unfold nth_byte.
  now rewrite (nth_error_nth _ _ x00 Hn).
Qed.

Lemma read_be16_nth_byte (buf : list byte) :
  read_be16 buf 3 = nth_byte buf 3 * 256 + nth_byte buf 4.
Proof. reflexivity. Qed.

Lemma nth_byte_range (buf : list byte) (i : nat) : 0 <= nth_byte buf i <= 255.
Proof. apply u8_range. Qed.

(** [x & 0x80] is non-zero exactly when bit 7 of [x] is set. *)
Lemma land_0x80_testbit (x : Z) :
  negb (Z.land x 0x80 =? 0) = Z.testbit x 7.
Proof.
  change 0x80 with (2 ^ 7).
  destruct (Z.testbit x 7) eqn:E.
  - destruct (Z.eqb_spec (Z.land x (2 ^ 7)) 0) as [H0|]; [|reflexivity].
    assert (Hb : Z.testbit (Z.land x (2 ^ 7)) 7 = true).
    { rewrite Z.land_spec, E, Z.pow2_bits_true by lia. reflexivity. }
    rewrite H0, Z.bits_0 in Hb. discriminate.
  - assert (H0 : Z.land x (2 ^ 7) = 0).
    { apply Z.bits_inj'. intros n Hn. rewrite Z.land_spec, Z.bits_0.
      destruct (Z.eq_dec n 7) as [->|Hne].
      - now rewrite E.
      - rewrite (Z.pow2_bits_false 7 n) by lia. apply andb_false_r. }
    now rewrite H0.
Qed.

(** Unfold the parser on a buffer of at least five bytes and resolve the
    reads of its record header. *)
Ltac header_reads Hlen :=
  unfold parse_packet, parse_tls_header, TLS_HEADER_LEN, short_and;
  match goal with
  | |- context [ if ?n <? 5 then _ else _ ] =>
      destruct (Z.ltb_spec n 5) as [?Hshort|_]; [lia|]
  end;
  rewrite ?(with_byte_at _ 0) by lia; change (Z.to_nat 0) with 0%nat;
  cbv beta.

(** ** Settled claims: results on the record header *)

(** C7: a buffer of at least five bytes whose byte 0 has its high bit set
    and whose byte 2 is 1 (the SSLv2 ClientHello framing) is answered with
    NoHostname. *)
Theorem sslv2_hello_no_hostname (malloc : Z -> bool) (buf : list byte)
    (data_len : Z) (h : cstring) (mp : Z) :
  5 <= data_len <= nbytes buf ->
  Z.testbit (nth_byte buf 0) 7 = true ->
  nth_byte buf 2 = 1 ->
  parse_packet malloc buf data_len (Some h) mp = Returned NoHostname h mp.
Proof.
  intros Hlen Hbit Hb2. header_reads Hlen.
  rewrite land_0x80_testbit, Hbit.
  rewrite (with_byte_at _ 2) by lia. change (Z.to_nat 2) with 2%nat.
  now rewrite Hb2.
Qed.

Lemma sslv2_hello_no_hostname_witness :
  parse_packet (fun _ => true) [x80; x2e; x01; x00; x02] 5 (Some None) 0
  = Returned NoHostname None 0.
Proof.
  apply sslv2_hello_no_hostname;
    [unfold nbytes; simpl; lia | reflexivity | reflexivity].
Defined.

(** C9: a buffer of at least five bytes with content type 0x16 and a
    record version major below 3 is answered with NoHostname, whatever
    its declared record length. *)
Theorem old_record_version_no_hostname (malloc : Z -> bool)
    (buf : list byte) (data_len : Z) (h : cstring) (mp : Z) :
  5 <= data_len <= nbytes buf ->
  nth_byte buf 0 = 0x16 ->
  nth_byte buf 1 < 3 ->
  parse_packet malloc buf data_len (Some h) mp = Returned NoHostname h mp.
Proof.
  intros Hlen Hct Hver. header_reads Hlen. rewrite Hct.
  change (negb (Z.land 22 128 =? 0)) with false.
  change (negb (22 =? TLS_HANDSHAKE_CONTENT_TYPE)) with false. cbv iota.
  rewrite (with_byte_at _ 1), (with_byte_at _ 2) by lia.
  change (Z.to_nat 1) with 1%nat.
  now rewrite (proj2 (Z.ltb_lt _ _) Hver).
Qed.

Lemma old_record_version_no_hostname_witness :
  parse_packet (fun _ => true) [x16; x02; x00; xff; xff] 5 (Some None) 7
  = Returned NoHostname None 7.
Proof.
  apply old_record_version_no_hostname;
    [unfold nbytes; simpl; lia | reflexivity | vm_compute; reflexivity].
Defined.

(** C6, as stated, fails on the SSLv2 framing: byte 0 is 0x80, not 0x16,
    and the answer is NoHostname. *)
Lemma content_type_counterexample :
  nth_byte [x80; x2e; x01; x00; x02] 0 <> 0x16 /\
  parse_packet (fun _ => true) [x80; x2e; x01; x00; x02] 5 (Some None) 0
  = Returned NoHostname None 0 /\
  NoHostname <> Malformed.
Proof. repeat split; vm_compute; discriminate. Qed.

(** C6, amended: a buffer of at least five bytes whose byte 0 is not 0x16
    and which does not have the SSLv2 framing (high bit of byte 0 set and
    byte 2 equal to 1) is answered with Malformed. *)
Theorem wrong_content_type_malformed (malloc : Z -> bool) (buf : list byte)
    (data_len : Z) (h : cstring) (mp : Z) :
  5 <= data_len <= nbytes buf ->
  nth_byte buf 0 <> 0x16 ->
  ~ (Z.testbit (nth_byte buf 0) 7 = true /\ nth_byte buf 2 = 1) ->
  parse_packet malloc buf data_len (Some h) mp = Returned Malformed h mp.
Proof.
  intros Hlen Hct Hssl. header_reads Hlen.
  rewrite land_0x80_testbit.
  unfold TLS_HANDSHAKE_CONTENT_TYPE in *.
  destruct (Z.eqb_spec (nth_byte buf 0) 0x16) as [|_]; [contradiction|].
  destruct (Z.testbit (nth_byte buf 0) 7) eqn:Ebit; [|reflexivity].
  rewrite (with_byte_at _ 2) by lia. change (Z.to_nat 2) with 2%nat.
  destruct (Z.eqb_spec (nth_byte buf 2) 1) as [E|_]; [|reflexivity].
  exfalso. apply Hssl. auto.
Qed.

Lemma wrong_content_type_malformed_witness :
  parse_packet (fun _ => true) [x17; x03; x03; x00; x01; x00] 6 (Some None) 0
  = Returned Malformed None 0.
Proof.
  apply wrong_content_type_malformed;
    [unfold nbytes; simpl; lia
    |vm_compute; discriminate
    |intros [Hbit _]; vm_compute in Hbit; discriminate].
Defined.

(** C5, as stated, fails on a record of the wrong content type: the
    declared length exceeds the buffer and the answer is Malformed. *)
Lemma incomplete_counterexample :
  nbytes [x17; x03; x01; xff; xff]
    < read_be16 [x17; x03; x01; xff; xff] 3 + 5 /\
  parse_packet (fun _ => true) [x17; x03; x01; xff; xff] 5 (Some None) 0
  = Returned Malformed None 0 /\
  Malformed <> Incomplete.
Proof. repeat split; vm_compute; discriminate || reflexivity. Qed.

(** C5, amended: a buffer shorter than five bytes is answered with
    Incomplete; so is a buffer of at least five bytes that passes the
    checks made before the length is read (content type 0x16, record
    version major at least 3) and whose declared record length plus the
    five header bytes exceeds the supplied length. *)
Theorem short_buffer_incomplete (malloc : Z -> bool) (buf : list byte)
    (data_len : Z) (h : cstring) (mp : Z) :
  data_len < 5 \/
  (5 <= data_len <= nbytes buf /\ nth_byte buf 0 = 0x16 /\
   3 <= nth_byte buf 1 /\ data_len < read_be16 buf 3 + 5) ->
  parse_packet malloc buf data_len (Some h) mp = Returned Incomplete h mp.
Proof.
  intros [Hshort|(Hlen & Hct & Hver & Hdecl)].
  - unfold parse_packet, parse_tls_header, TLS_HEADER_LEN.
    now rewrite (proj2 (Z.ltb_lt _ _) Hshort).
  - header_reads Hlen. rewrite Hct.
    change (negb (Z.land 22 128 =? 0)) with false.
    change (negb (22 =? TLS_HANDSHAKE_CONTENT_TYPE)) with false. cbv iota.
    rewrite (with_byte_at _ 1), (with_byte_at _ 2), (with_byte_at _ 3),
      (with_byte_at _ 4) by lia.
    change (Z.to_nat 1) with 1%nat. change (Z.to_nat 3) with 3%nat.
    change (Z.to_nat 4) with 4%nat.
    rewrite (proj2 (Z.ltb_ge _ _) Hver).
    rewrite read_be16_nth_byte in Hdecl.
    pose proof (nth_byte_range buf 3). pose proof (nth_byte_range buf 4).
    cbv zeta. nowrap. unfold MIN.
    rewrite (proj2 (Z.ltb_lt _ _) Hdecl).
    now rewrite (proj2 (Z.ltb_lt _ _) Hdecl).
Qed.

Lemma short_buffer_incomplete_witness :
  parse_packet (fun _ => true) [x16; x03; x01; x00; x2f; x01] 6 (Some None) 0
  = Returned Incomplete None 0.
Proof.
  apply short_buffer_incomplete. right.
  repeat split; try (unfold nbytes; simpl; lia); vm_compute; congruence.
Defined.

(** ** Byte lists: slices, writes and big-endian fields *)

Lemma firstn_nbytes (A R : list byte) (k : Z) :
  k = nbytes A -> firstn (Z.to_nat k) (A ++ R) = A.
Proof.
  intros ->. unfold nbytes. rewrite Nat2Z.id.
  rewrite firstn_app, Nat.sub_diag, firstn_all. simpl. apply app_nil_r.
Qed.

Lemma skipn_nbytes (A R : list byte) (k : Z) :
  k = nbytes A -> skipn (Z.to_nat k) (A ++ R) = R.
Proof.
  intros ->. unfold nbytes. rewrite Nat2Z.id.
  rewrite skipn_app, Nat.sub_diag, skipn_all. reflexivity.
Qed.

Lemma slice_nbytes (l : list byte) (i n : Z) :
  0 <= i -> 0 <= n -> i + n <= nbytes l -> nbytes (slice l i n) = n.
Proof.
  intros Hi Hn Hl. unfold slice, nbytes in *.
  rewrite length_firstn, length_skipn. lia.
Qed.

Lemma slice_app_skip (A R : list byte) (a i n : Z) :
  a = nbytes A -> 0 <= i -> slice (A ++ R) (a + i) n = slice R i n.
Proof.
  intros -> Hi. unfold slice. f_equal.
  rewrite Z2Nat.inj_add by (unfold nbytes; lia).
  rewrite Nat.add_comm, <- skipn_skipn.
  now rewrite (skipn_nbytes A R).
Qed.

Lemma slice_0 (l : list byte) (n : Z) : slice l 0 n = firstn (Z.to_nat n) l.
Proof. reflexivity. Qed.

Lemma slice_at (A R : list byte) (a n : Z) :
  a = nbytes A -> slice (A ++ R) a n = firstn (Z.to_nat n) R.
Proof.
  intros Ha. rewrite <- (Z.add_0_r a).
  rewrite (slice_app_skip A R a 0 n Ha) by lia. apply slice_0.
Qed.

Lemma slice_exact (A S R : list byte) (a n : Z) :
  a = nbytes A -> n = nbytes S -> slice (A ++ S ++ R) a n = S.
Proof.
  intros Ha Hn. rewrite (slice_at A _ a n Ha). now apply firstn_nbytes.
Qed.

Lemma firstn_add (a b : nat) : forall t : list byte,
  firstn (a + b) t = firstn a t ++ firstn b (skipn a t).
Proof.
  induction a as [|a IH]; intros t; [reflexivity|].
  destruct t as [|x t]; simpl.
  - now rewrite firstn_nil.
  - now rewrite IH.
Qed.

(** A slice splits where its length does. *)
Lemma slice_split (l : list byte) (i n1 n2 : Z) :
  0 <= i -> 0 <= n1 -> 0 <= n2 ->
  slice l i (n1 + n2) = slice l i n1 ++ slice l (i + n1) n2.
Proof.
  intros Hi H1 H2. unfold slice.
  rewrite !Z2Nat.inj_add by lia.
  rewrite (Nat.add_comm (Z.to_nat i)), <- skipn_skipn.
  apply firstn_add.
Qed.

Lemma slice_prefix (A R : list byte) (i n : Z) :
  0 <= i -> 0 <= n -> i + n <= nbytes A -> slice (A ++ R) i n = slice A i n.
Proof.
  intros Hi Hn Hl. unfold slice, nbytes in *.
  rewrite skipn_app, firstn_app, length_skipn.
  replace (Z.to_nat n - (length A - Z.to_nat i))%nat with 0%nat by lia.
  simpl. apply app_nil_r.
Qed.

Lemma in_range_true (mem : list byte) (a n : Z) :
  0 <= a -> 0 <= n -> a + n <= nbytes mem -> in_range mem a n = true.
Proof.
  intros Ha Hn Hl. unfold in_range.
  rewrite (proj2 (Z.leb_le _ _) Ha), (proj2 (Z.leb_le _ _) Hn).
  now rewrite (proj2 (Z.leb_le _ _) Hl).
Qed.

Lemma write_bytes_exact (A old R new : list byte) (a : Z) :
  a = nbytes A -> nbytes new = nbytes old ->
  write_bytes (A ++ old ++ R) a new = Some (A ++ new ++ R).
Proof.
  intros Ha Hn. unfold write_bytes.
  rewrite in_range_true;
    [|subst a; apply nbytes_nonneg|apply nbytes_nonneg
     |rewrite !nbytes_app; pose proof (nbytes_nonneg R); lia].
  rewrite (firstn_nbytes A _ a Ha).
  rewrite (app_assoc A old R).
  rewrite (skipn_nbytes (A ++ old) R) by (rewrite nbytes_app; lia).
  reflexivity.
Qed.

Lemma read_be16_app_skip (A R : list byte) (a i : Z) :
  a = nbytes A -> 0 <= i -> read_be16 (A ++ R) (a + i) = read_be16 R i.
Proof.
  intros -> Hi. unfold read_be16, nbytes.
  replace (Z.to_nat (Z.of_nat (length A) + i))
    with (length A + Z.to_nat i)%nat by lia.
  replace (Z.to_nat (Z.of_nat (length A) + i + 1))
    with (length A + Z.to_nat (i + 1))%nat by lia.
  rewrite !app_nth2_plus. reflexivity.
Qed.

Lemma read_be16_be16 (v : Z) (R : list byte) :
  0 <= v < 65536 -> read_be16 (be16 v ++ R) 0 = v.
Proof.
  intros Hv. unfold read_be16, be16. simpl.
  rewrite !u8_to_byte.
  rewrite (Z.mod_small (v / 256)) by (split; [apply Z.div_pos; lia|apply Z.div_lt_upper_bound; lia]).
  pose proof (Z.div_mod v 256). lia.
Qed.

Lemma nbytes_be16 (v : Z) : nbytes (be16 v) = 2.
Proof. reflexivity. Qed.

(** Storing [htons v] through a [uint16_t] pointer writes the big-endian
    bytes of [v], whatever the byte order of the host. *)
Lemma store_htons (le : bool) (mem : list byte) (a v : Z) :
  store_u16 le mem a (htons le v) = write_bytes mem a (be16 v).
Proof.
  unfold store_u16, htons, be16, uint16_t. f_equal.
  assert (Hto : forall x y, x mod 256 = y mod 256 -> to_byte x = to_byte y).
  { intros x y E. unfold to_byte. now rewrite E. }
  assert (H1 : 0 <= v mod 65536 < 65536) by (apply Z.mod_pos_bound; lia).
  set (w := v mod 65536) in *.
  assert (Hv : v / 256 mod 256 = w / 256).
  { unfold w. change 65536 with (256 * 256).
    rewrite Z.rem_mul_r by lia.
    rewrite Z.mul_comm, Z.div_add by lia.
    rewrite (Z.div_small (v mod 256)) by (apply Z.mod_pos_bound; lia).
    reflexivity. }
  assert (Hlo : v mod 256 = w mod 256).
  { unfold w. change 65536 with (256 * 256).
    rewrite Z.rem_mul_r by lia.
    rewrite Z.mul_comm, Z.mod_add by lia.
    now rewrite Z.mod_mod by lia. }
  assert (Hw : 0 <= w / 256 < 256).
  { split; [apply Z.div_pos; lia|apply Z.div_lt_upper_bound; lia]. }
  destruct le.
  - f_equal; [|f_equal]; apply Hto.
    + rewrite Z.add_comm, Z.mod_add by lia.
      rewrite Hv. now rewrite Z.mod_small by lia.
    + rewrite Z.div_add_l by lia. rewrite (Z.div_small (w / 256)) by lia.
      rewrite Z.add_0_r, Z.mod_mod by lia. symmetry. exact Hlo.
  - f_equal; [|f_equal]; apply Hto.
    + rewrite Hv. now rewrite Z.mod_small by lia.
    + symmetry. exact Hlo.
Qed.

Lemma add_exact (a b : Z) : 0 <= a + b < SIZE_MOD -> a +s b = a + b.
Proof. intros H. unfold Mach.add, size_t. now apply Z.mod_small. Qed.

Lemma sub_exact (a b : Z) : 0 <= a - b < SIZE_MOD -> a -s b = a - b.
Proof. intros H. unfold Mach.sub, size_t. now apply Z.mod_small. Qed.

Ltac list_eq :=
  repeat (progress (rewrite <- ?app_assoc; cbn [app])); reflexivity.
Ltac len_solve :=
  unfold nbytes in *;
  repeat (progress (rewrite ?length_app; cbn [length app])); lia.

(** ** The record splitter on a buffer cut at the split point

    The memory is the record header [h0 h1 h2 a b], the bytes [B] before
    the split, and after it the five bytes [X], the bytes [Y] up to
    [data_len] and the rest [E].  The splitter leaves the three leading
    header bytes, writes the length of [B], repeats the header before the
    bytes that followed the split and gives it the remaining length. *)
Lemma modify_tls_header_split (le : bool) (h0 h1 h2 a b : byte)
    (B X Y E : list byte) (data_len M : Z) (hn : cstring) :
  nbytes X = 5 ->
  M + 1 = 5 + nbytes B ->
  data_len = 5 + nbytes B + 5 + nbytes Y ->
  data_len < SIZE_MOD ->
  modify_tls_header le ([h0; h1; h2; a; b] ++ B ++ X ++ Y ++ E) data_len hn M
  = Some ([h0; h1; h2] ++ be16 (nbytes B) ++ B
            ++ [h0; h1; h2] ++ be16 ((u8 a * 256 + u8 b) -s nbytes B)
            ++ firstn (length Y) (X ++ Y) ++ E).
Proof.
  intros HX HM Hdl Hmax.
  pose proof (nbytes_nonneg B) as HB0. pose proof (nbytes_nonneg Y) as HY0.
  set (hdr := [h0; h1; h2; a; b]).
  set (C := firstn (length Y) (X ++ Y)).
  assert (HC : nbytes C = nbytes Y).
  { unfold C, nbytes in *. rewrite length_firstn, length_app. lia. }
  unfold modify_tls_header.
  rewrite (add_exact M 1) by lia.
  rewrite (sub_exact data_len 5) by lia.
  rewrite (sub_exact (data_len - 5) (M + 1)) by lia.
  replace (data_len - 5 - (M + 1)) with (nbytes Y) by lia.
  (* the shift *)
  assert (Hmove :
    memmove (hdr ++ B ++ X ++ Y ++ E) (5 + (M + 1)) (M + 1) (nbytes Y)
    = Some (hdr ++ B ++ X ++ C ++ E)).
  { unfold memmove.
    rewrite in_range_true by (unfold hdr; len_solve).
    replace (slice (hdr ++ B ++ X ++ Y ++ E) (M + 1) (nbytes Y)) with C.
    - replace (hdr ++ B ++ X ++ Y ++ E) with ((hdr ++ B ++ X) ++ Y ++ E)
        by list_eq.
      rewrite (write_bytes_exact (hdr ++ B ++ X) Y E C);
        [f_equal; list_eq|unfold hdr; len_solve|exact HC].
    - replace (hdr ++ B ++ X ++ Y ++ E) with ((hdr ++ B) ++ (X ++ Y) ++ E)
        by list_eq.
      rewrite (slice_at (hdr ++ B) _ (M + 1)) by (unfold hdr; len_solve).
      unfold C, nbytes. rewrite Nat2Z.id.
      rewrite (firstn_app (length Y) (X ++ Y) E).
      replace (length Y - length (X ++ Y))%nat with 0%nat
        by (rewrite length_app; lia).
      rewrite firstn_O. symmetry. apply app_nil_r. }
  fold hdr. rewrite Hmove. cbn [bind].
  (* the header copy *)
  assert (Hcopy :
    memcpy (hdr ++ B ++ X ++ C ++ E) (M + 1) 0 5
    = Some (hdr ++ B ++ hdr ++ C ++ E)).
  { unfold memcpy, memmove.
    replace ((M + 1 + 5 <=? 0) || (0 + 5 <=? M + 1)) with true
      by (symmetry; apply orb_true_iff; right; apply Z.leb_le; lia).
    rewrite in_range_true by (unfold hdr; len_solve).
    replace (slice (hdr ++ B ++ X ++ C ++ E) 0 5) with hdr by reflexivity.
    replace (hdr ++ B ++ X ++ C ++ E) with ((hdr ++ B) ++ X ++ C ++ E)
      by list_eq.
    rewrite (write_bytes_exact (hdr ++ B) X (C ++ E) hdr);
      [f_equal; list_eq|unfold hdr; len_solve|rewrite HX; reflexivity]. }
  rewrite Hcopy. cbn [bind].
  change (load (mkptr (hdr ++ B ++ hdr ++ C ++ E) 0) 3) with (Some (u8 a)).
  change (load (mkptr (hdr ++ B ++ hdr ++ C ++ E) 0) 4) with (Some (u8 b)).
  cbn [bind].
  pose proof (u8_range a) as Ha. pose proof (u8_range b) as Hb.
  rewrite Z.shiftl_mul_pow2 by lia. change (2 ^ 8) with 256.
  unfold uint16_t at 1. rewrite (Z.mod_small (u8 a * 256 + u8 b)) by lia.
  rewrite (sub_exact (M + 1) 5) by lia.
  replace (M + 1 - 5) with (nbytes B) by lia.
  rewrite !store_htons.
  (* the two length fields *)
  replace (hdr ++ B ++ hdr ++ C ++ E)
    with ([h0; h1; h2] ++ [a; b] ++ (B ++ hdr ++ C ++ E)) by list_eq.
  rewrite (write_bytes_exact [h0; h1; h2] [a; b] _ (be16 (nbytes B)))
    by reflexivity.
  cbn [bind].
  replace ([h0; h1; h2] ++ be16 (nbytes B) ++ B ++ hdr ++ C ++ E)
    with (([h0; h1; h2] ++ be16 (nbytes B) ++ B ++ [h0; h1; h2])
            ++ [a; b] ++ (C ++ E)) by (unfold hdr; list_eq).
  rewrite store_htons.
  rewrite (write_bytes_exact _ [a; b] _ (be16 (u8 a * 256 + u8 b -s nbytes B)));
    [f_equal; list_eq|unfold be16; len_solve|reflexivity].
Qed.

(** A buffer cut at the positions the splitter works with. *)
Lemma cut_at_split (mem : list byte) (M data_len : Z) :
  4 <= M -> M + 6 <= data_len <= nbytes mem ->
  exists h0 h1 h2 a b B X Y E,
    mem = [h0; h1; h2; a; b] ++ B ++ X ++ Y ++ E /\
    nbytes B = M + 1 - 5 /\ nbytes X = 5 /\ nbytes Y = data_len - (M + 6).
Proof.
  intros HM Hdl.
  destruct mem as [|h0 [|h1 [|h2 [|a [|b rest] ] ] ] ];
    try (unfold nbytes in Hdl; simpl in Hdl; lia).
  assert (Hrest : M + 1 <= data_len - 5 <= nbytes rest)
    by (unfold nbytes in *; simpl length in Hdl; lia).
  exists h0, h1, h2, a, b.
  exists (slice rest 0 (M + 1 - 5)), (slice rest (M + 1 - 5) 5),
    (slice rest (M + 1) (data_len - (M + 6))),
    (skipn (Z.to_nat (data_len - 5)) rest).
  repeat split; try (apply slice_nbytes; lia).
  cbn [app]. do 5 f_equal.
  rewrite app_assoc, <- slice_split by lia.
  replace (M + 1) with (0 + (M + 1 - 5 + 5)) at 2 by lia.
  rewrite app_assoc, <- slice_split by lia.
  replace (M + 1 - 5 + 5 + (data_len - (M + 6))) with (data_len - 5) by lia.
  rewrite slice_0. symmetry. apply firstn_skipn.
Qed.

(** ** What the record splitter does

    For a split point inside the record and a buffer that holds
    [data_len >= split + 5] bytes, the splitter runs without leaving the
    buffer and produces two records in place of one. *)
Lemma modify_tls_header_correct (le : bool) (mem : list byte)
    (data_len : Z) (hn : cstring) (M : Z) :
  4 <= M -> M + 6 <= data_len <= nbytes mem -> data_len < SIZE_MOD ->
  M + 1 - 5 <= read_be16 mem 3 ->
  exists mem',
    modify_tls_header le mem data_len hn M = Some mem' /\
    nbytes mem' = nbytes mem /\
    slice mem' 0 3 = slice mem 0 3 /\
    read_be16 mem' 3 = M + 1 - 5 /\
    slice mem' 5 (M + 1 - 5) = slice mem 5 (M + 1 - 5) /\
    slice mem' (M + 1) 3 = slice mem 0 3 /\
    read_be16 mem' (M + 1 + 3) = read_be16 mem 3 - (M + 1 - 5) /\
    slice mem' (M + 1 + 5) (data_len - 5 - (M + 1))
      = slice mem (M + 1) (data_len - 5 - (M + 1)) /\
    skipn (Z.to_nat data_len) mem' = skipn (Z.to_nat data_len) mem.
Proof.
  intros HM Hdl Hmax Hrec.
  destruct (cut_at_split mem M data_len HM Hdl)
    as (h0 & h1 & h2 & a & b & B & X & Y & E & -> & HB & HX & HY).
  change (read_be16 ([h0; h1; h2; a; b] ++ B ++ X ++ Y ++ E) 3)
    with (u8 a * 256 + u8 b) in *.
  pose proof (u8_range a) as Ha. pose proof (u8_range b) as Hb.
  pose proof (nbytes_nonneg Y) as HY0.
  rewrite modify_tls_header_split by lia.
  rewrite (sub_exact (u8 a * 256 + u8 b)) by (rewrite size_mod_eq; lia).
  set (C := firstn (length Y) (X ++ Y)).
  assert (HC : nbytes C = nbytes Y).
  { unfold C, nbytes in *. rewrite length_firstn, length_app. lia. }
  eexists. split; [reflexivity|].
  repeat split.
  - unfold be16. len_solve.
  - replace ([h0; h1; h2] ++ be16 (nbytes B) ++ B ++ [h0; h1; h2]
               ++ be16 (u8 a * 256 + u8 b - nbytes B) ++ C ++ E)
      with ([h0; h1; h2] ++ be16 (nbytes B)
              ++ (B ++ [h0; h1; h2]
                    ++ be16 (u8 a * 256 + u8 b - nbytes B) ++ C ++ E))
      by list_eq.
    change 3 with (3 + 0) at 1.
    rewrite (read_be16_app_skip [h0; h1; h2]) by (reflexivity || lia).
    rewrite read_be16_be16 by lia. lia.
  - rewrite <- HB.
    replace ([h0; h1; h2] ++ be16 (nbytes B) ++ B ++ [h0; h1; h2]
               ++ be16 (u8 a * 256 + u8 b - nbytes B) ++ C ++ E)
      with (([h0; h1; h2] ++ be16 (nbytes B)) ++ B
              ++ ([h0; h1; h2]
                    ++ be16 (u8 a * 256 + u8 b - nbytes B) ++ C ++ E))
      by list_eq.
    rewrite slice_exact by reflexivity.
    symmetry. apply (slice_exact [h0; h1; h2; a; b] B); reflexivity.
  - replace ([h0; h1; h2] ++ be16 (nbytes B) ++ B ++ [h0; h1; h2]
               ++ be16 (u8 a * 256 + u8 b - nbytes B) ++ C ++ E)
      with (([h0; h1; h2] ++ be16 (nbytes B) ++ B) ++ [h0; h1; h2]
              ++ (be16 (u8 a * 256 + u8 b - nbytes B) ++ C ++ E))
      by list_eq.
    rewrite slice_exact; [reflexivity|unfold be16; len_solve|reflexivity].
  - replace ([h0; h1; h2] ++ be16 (nbytes B) ++ B ++ [h0; h1; h2]
               ++ be16 (u8 a * 256 + u8 b - nbytes B) ++ C ++ E)
      with (([h0; h1; h2] ++ be16 (nbytes B) ++ B ++ [h0; h1; h2])
              ++ (be16 (u8 a * 256 + u8 b - nbytes B) ++ C ++ E))
      by list_eq.
    replace (M + 1 + 3) with (M + 1 + 3 + 0) by lia.
    rewrite (read_be16_app_skip _ _ (M + 1 + 3))
      by (try lia; unfold be16; len_solve).
    rewrite read_be16_be16 by lia. lia.
  - replace ([h0; h1; h2] ++ be16 (nbytes B) ++ B ++ [h0; h1; h2]
               ++ be16 (u8 a * 256 + u8 b - nbytes B) ++ C ++ E)
      with (([h0; h1; h2] ++ be16 (nbytes B) ++ B ++ [h0; h1; h2]
               ++ be16 (u8 a * 256 + u8 b - nbytes B)) ++ C ++ E)
      by list_eq.
    rewrite slice_exact; [|unfold be16; len_solve|lia].
    replace ([h0; h1; h2; a; b] ++ B ++ X ++ Y ++ E)
      with (([h0; h1; h2; a; b] ++ B) ++ (X ++ Y) ++ E) by list_eq.
    rewrite (slice_at _ _ (M + 1)) by len_solve.
    replace (Z.to_nat (data_len - 5 - (M + 1))) with (length Y)
      by (unfold nbytes in *; lia).
    rewrite (firstn_app (length Y) (X ++ Y) E).
    replace (length Y - length (X ++ Y))%nat with 0%nat
      by (rewrite length_app; lia).
    rewrite firstn_O. symmetry. apply app_nil_r.
  - replace ([h0; h1; h2] ++ be16 (nbytes B) ++ B ++ [h0; h1; h2]
               ++ be16 (u8 a * 256 + u8 b - nbytes B) ++ C ++ E)
      with (([h0; h1; h2] ++ be16 (nbytes B) ++ B ++ [h0; h1; h2]
               ++ be16 (u8 a * 256 + u8 b - nbytes B) ++ C) ++ E)
      by list_eq.
    rewrite skipn_nbytes by (unfold be16; len_solve).
    replace ([h0; h1; h2; a; b] ++ B ++ X ++ Y ++ E)
      with (([h0; h1; h2; a; b] ++ B ++ X ++ Y) ++ E) by list_eq.
    rewrite skipn_nbytes by len_solve. reflexivity.
Qed.

(** ** A successful parse *)

Lemma failure_negative (r : Z) : failure r -> r < 0.
Proof. autounfold with codes. lia. Qed.

(** A hostname is only reported when the buffer holds the whole record. *)
Lemma success_has_whole_record (malloc : Z -> bool) (buf : list byte)
    (data_len : Z) (hostname : option cstring) (mp L : Z) (h : cstring)
    (M : Z) :
  data_len <= nbytes buf ->
  parse_packet malloc buf data_len hostname mp = Returned L h M -> 0 <= L ->
  5 + read_be16 buf 3 <= data_len.
Proof.
  intros Hbuf Hrun HL.
  destruct (Z.le_gt_cases (5 + read_be16 buf 3) data_len) as [|Hshort];
    [assumption|exfalso].
  assert (Hneg : forall r h' m', Returned r h' m' = Returned L h M -> r < 0
                 -> False) by (intros r h' m' [= -> _ _] Hr; lia).
  destruct hostname as [h0|];
    [|apply (Hneg _ _ _ Hrun); autounfold with codes; lia].
  destruct (Z.lt_ge_cases data_len 5) as [H5|H5].
  - unfold parse_packet, parse_tls_header, TLS_HEADER_LEN in Hrun.
    rewrite (proj2 (Z.ltb_lt _ _) H5) in Hrun.
    apply (Hneg _ _ _ Hrun). autounfold with codes. lia.
  - revert Hrun. header_reads H5.
    rewrite ?(with_byte_at _ 1), ?(with_byte_at _ 2), ?(with_byte_at _ 3),
      ?(with_byte_at _ 4) by lia.
    change (Z.to_nat 1) with 1%nat. change (Z.to_nat 2) with 2%nat.
    change (Z.to_nat 3) with 3%nat. change (Z.to_nat 4) with 4%nat.
    rewrite read_be16_nth_byte in Hshort.
    pose proof (nth_byte_range buf 3). pose proof (nth_byte_range buf 4).
    cbv zeta. nowrap. unfold MIN.
    assert (Hlt : data_len < nth_byte buf 3 * 256 + nth_byte buf 4 + 5) by lia.
    rewrite !(proj2 (Z.ltb_lt _ _) Hlt).
    repeat match goal with
           | |- context [ if ?c then _ else _ ] => destruct c
           end;
      intros Hrun; apply (Hneg _ _ _ Hrun); autounfold with codes; lia.
Qed.

Lemma parse_success (malloc : Z -> bool) (buf : list byte) (data_len : Z)
    (hostname : option cstring) (mp L : Z) (h : cstring) (M : Z) :
  data_len <= nbytes buf ->
  parse_packet malloc buf data_len hostname mp = Returned L h M -> 0 <= L ->
  5 + read_be16 buf 3 <= data_len /\
  hostname_at buf 5 (5 + read_be16 buf 3) L h M.
Proof.
  intros Hbuf Hrun HL.
  pose proof (success_has_whole_record _ _ _ _ _ _ _ _ Hbuf Hrun HL) as Hrec.
  split; [exact Hrec|].
  pose proof (parse_tls_header_parsed malloc buf data_len hostname mp Hbuf)
    as Hp.
  unfold parse_packet in Hrun. rewrite Hrun in Hp.
  destruct Hp as [F|Hat]; [apply failure_negative in F; lia|].
  now rewrite Z.min_r in Hat by lia.
Qed.

(** ** Settled claims: the parser *)

(** C1: for every buffer and supplied length [data_len] (the buffer
    holding at least that many bytes), the parser given only the first
    [data_len] bytes performs no read outside them and ends by returning
    a result, and it returns the same on the whole buffer: every index
    it reads is below [data_len], and neither loop runs out of fuel. *)
Theorem parser_reads_in_bounds (malloc : Z -> bool) (buf : list byte)
    (data_len : Z) (hostname : option cstring) (mp : Z) :
  data_len <= nbytes buf ->
  exists r h m,
    parse_tls_header malloc (mkptr (firstn (Z.to_nat data_len) buf) 0)
                     data_len hostname mp
    = Returned r h m /\
    parse_tls_header malloc (mkptr buf 0) data_len hostname mp
    = Returned r h m.
Proof.
  intros Hbuf.
  set (seen := firstn (Z.to_nat data_len) buf).
  assert (Hseen : data_len <= nbytes seen).
  { unfold seen, nbytes in *. rewrite length_firstn. lia. }
  pose proof (parse_tls_header_parsed malloc seen data_len hostname mp Hseen)
    as Hp.
  destruct (parse_tls_header malloc (mkptr seen 0) data_len hostname mp)
    as [| |r h m] eqn:Hrun; [contradiction|contradiction|].
  exists r, h, m. split; [reflexivity|].
  rewrite <- (firstn_skipn (Z.to_nat data_len) buf). fold seen.
  now apply parse_tls_header_extend.
Qed.

Lemma parser_reads_in_bounds_witness :
  exists r h m,
    parse_tls_header (fun _ => true)
      (mkptr (firstn (Z.to_nat 80) (hello_example_com ++ [x17; x03])) 0)
      80 (Some None) 0
    = Returned r h m /\
    parse_tls_header (fun _ => true)
      (mkptr (hello_example_com ++ [x17; x03]) 0) 80 (Some None) 0
    = Returned r h m.
Proof.
  apply parser_reads_in_bounds. vm_compute. discriminate.
Defined.

(** C2, as stated, fails on a name that contains a zero byte: [strncpy]
    stops at it, so the hostname output is not the name bytes followed by
    a terminating zero. *)
Lemma hostname_copy_counterexample :
  parse_packet (fun _ => true) hello_nul (nbytes hello_nul) (Some None) 0
  = Returned 3 (Some [x61; x00; x00; x00]) 61 /\
  slice hello_nul 61 3 = [x61; x00; x62] /\
  Some [x61; x00; x00; x00] <> Some (slice hello_nul 61 3 ++ [x00]).
Proof. repeat split; vm_compute; discriminate || reflexivity. Qed.

(** C2, amended: when the parser succeeds with result [L] and
    modify-position [M], [M] is the index in the original buffer of the
    first name byte of a [host_name] entry (type byte 0 at [M - 3]) whose
    declared 16-bit length (at [M - 2]) is [L]; the hostname output is a
    block of [L + 1] bytes holding the name bytes that precede the first
    zero byte of the name, followed by zero bytes; it is the [L] name
    bytes followed by a terminating zero whenever the name contains no
    zero byte. *)
Theorem hostname_extracted (malloc : Z -> bool) (buf : list byte)
    (data_len : Z) (hostname : option cstring) (mp L : Z) (h : cstring)
    (M : Z) :
  data_len <= nbytes buf ->
  parse_packet malloc buf data_len hostname mp = Returned L h M -> 0 <= L ->
  nbytes (slice buf M L) = L /\
  byte_at buf (M - 3) = Some 0 /\
  read_be16 buf (M - 2) = L /\
  h = Some (c_prefix (slice buf M L)
              ++ repeat x00 (Z.to_nat L - length (c_prefix (slice buf M L)))
              ++ [x00]) /\
  (exists hblock, h = Some hblock /\ nbytes hblock = L + 1) /\
  (Forall (fun b => b <> x00) (slice buf M L) ->
   h = Some (slice buf M L ++ [x00])).
Proof.
  intros Hbuf Hrun HL.
  destruct (parse_success _ _ _ _ _ _ _ _ Hbuf Hrun HL)
    as (Hrec & Hr & Hlo & Hhi & Hend & Hty & (b1 & b2 & H1 & H2 & Hlen)
        & copied & Hcopy & ->).
  assert (Hname : nbytes (slice buf M L) = L) by (apply slice_nbytes; lia).
  assert (Hsrc : (Z.to_nat L <= length (skipn (Z.to_nat M) buf))%nat).
  { rewrite length_skipn. unfold nbytes in Hbuf. lia. }
  rewrite (strncpy_spec _ _ Hsrc) in Hcopy. injection Hcopy as <-.
  fold (slice buf M L).
  repeat split.
  - exact Hname.
  - exact Hty.
  - replace (M - 1) with (M - 2 + 1) in H2 by lia.
    rewrite (read_be16_byte_at _ _ _ _ H1 H2). lia.
  - now rewrite <- app_assoc.
  - eexists. split; [reflexivity|].
    pose proof (c_prefix_length (slice buf M L)).
    unfold nbytes in *. rewrite !length_app, repeat_length. simpl length. lia.
  - intros Hnz. rewrite (c_prefix_no_nul _ Hnz).
    replace (Z.to_nat L - length (slice buf M L))%nat with 0%nat
      by (unfold nbytes in Hname; lia).
    simpl. now rewrite app_nil_r.
Qed.

Lemma hostname_extracted_witness :
  nbytes (slice hello_example_com 69 11) = 11 /\
  byte_at hello_example_com (69 - 3) = Some 0 /\
  read_be16 hello_example_com (69 - 2) = 11 /\
  Some (example_com ++ [x00])
  = Some (c_prefix (slice hello_example_com 69 11)
            ++ repeat x00 (Z.to_nat 11
                           - length (c_prefix (slice hello_example_com 69 11)))
            ++ [x00]) /\
  (exists hblock, Some (example_com ++ [x00]) = Some hblock
                  /\ nbytes hblock = 11 + 1) /\
  (Forall (fun b => b <> x00) (slice hello_example_com 69 11) ->
   Some (example_com ++ [x00])
   = Some (slice hello_example_com 69 11 ++ [x00])).
Proof.
  apply (hostname_extracted (fun _ => true) hello_example_com 80
                            (Some None) 0 11 (Some (example_com ++ [x00])) 69);
    [vm_compute; discriminate | vm_compute; reflexivity | lia].
Defined.

(** The sample of the specification: a TLS 1.2 ClientHello whose SNI
    extension carries [example.com] yields 11, the name followed by a
    zero byte, and the offset of the first name byte. *)
Example parse_example_com :
  parse_packet (fun _ => true) hello_example_com 80 (Some None) 0
  = Returned 11 (Some (example_com ++ [x00])) 69 /\
  slice hello_example_com 69 11 = example_com.
Proof. split; vm_compute; reflexivity. Qed.

(** ** Settled claims: the record splitter *)

Lemma read_be16_prefix (A R : list byte) (i : Z) :
  0 <= i -> i + 2 <= nbytes A -> read_be16 (A ++ R) i = read_be16 A i.
Proof.
  intros Hi Hl. unfold read_be16, nbytes in *.
  rewrite !app_nth1 by lia. reflexivity.
Qed.

Lemma slice_shorter (l : list byte) (i n p : Z) :
  0 <= p <= n -> firstn (Z.to_nat p) (slice l i n) = slice l i p.
Proof.
  intros Hp. unfold slice. rewrite firstn_firstn. f_equal. lia.
Qed.

(** A successful parse leaves room for the splitter's arithmetic. *)
Lemma success_split_point (malloc : Z -> bool) (buf : list byte)
    (data_len : Z) (hostname : option cstring) (mp L : Z) (h : cstring)
    (M : Z) :
  data_len <= nbytes buf ->
  parse_packet malloc buf data_len hostname mp = Returned L h M -> 0 <= L ->
  8 <= M /\ M + L <= 5 + read_be16 buf 3 /\ M + 1 <= 5 + read_be16 buf 3 /\
  5 + read_be16 buf 3 <= data_len.
Proof.
  intros Hbuf Hrun HL.
  destruct (parse_success _ _ _ _ _ _ _ _ Hbuf Hrun HL)
    as (Hrec & Hr & Hlo & Hhi & Hend & _). lia.
Qed.

(** C4: after a successful parse with modify-position [M], on a buffer
    that holds [total >= M + 6] bytes, the splitter works at
    [split = M + 1]: the three leading header bytes stand again at
    [split], the 16-bit big-endian length field of the first record is
    [split - 5], that of the second is the declared record length minus
    [split - 5], the bytes before the split stay and those after it move
    up by five; the length of the buffer does not change. *)
Theorem splitter_writes_two_headers (le : bool) (malloc : Z -> bool)
    (buf : list byte) (data_len : Z) (hostname : option cstring)
    (mp L : Z) (h : cstring) (M : Z) (extra : list byte) (total : Z)
    (hn : cstring) :
  data_len <= nbytes buf ->
  parse_packet malloc buf data_len hostname mp = Returned L h M -> 0 <= L ->
  M + 1 + 5 <= total <= nbytes (buf ++ extra) -> total < SIZE_MOD ->
  exists mem',
    modify_tls_header le (buf ++ extra) total hn M = Some mem' /\
    nbytes mem' = nbytes (buf ++ extra) /\
    slice mem' 0 3 = slice buf 0 3 /\
    slice mem' (M + 1) 3 = slice buf 0 3 /\
    read_be16 mem' 3 = M + 1 - 5 /\
    read_be16 mem' (M + 1 + 3) = read_be16 buf 3 - (M + 1 - 5) /\
    slice mem' 5 (M + 1 - 5) = slice buf 5 (M + 1 - 5) /\
    slice mem' (M + 1 + 5) (total - 5 - (M + 1))
      = slice (buf ++ extra) (M + 1) (total - 5 - (M + 1)).
Proof.
  intros Hbuf Hrun HL Htotal Hmax.
  destruct (success_split_point _ _ _ _ _ _ _ _ Hbuf Hrun HL)
    as (HM & HML & Hsplit & Hrec).
  assert (Hlen16 : read_be16 (buf ++ extra) 3 = read_be16 buf 3)
    by (apply read_be16_prefix; lia).
  destruct (modify_tls_header_correct le (buf ++ extra) total hn M)
    as (mem' & Hrun' & Hlen & Hh & Hl1 & Hb & Hh2 & Hl2 & Hc & _);
    try lia.
  exists mem'. rewrite Hlen16 in Hl2.
  rewrite (slice_prefix buf extra 0 3) in Hh, Hh2 by lia.
  rewrite (slice_prefix buf extra 5 (M + 1 - 5)) in Hb by lia.
  repeat split; assumption.
Qed.

Lemma splitter_writes_two_headers_witness :
  exists mem',
    modify_tls_header true (hello_example_com ++ repeat x00 5) 85 None 69
    = Some mem' /\
    nbytes mem' = nbytes (hello_example_com ++ repeat x00 5) /\
    slice mem' 0 3 = slice hello_example_com 0 3 /\
    slice mem' (69 + 1) 3 = slice hello_example_com 0 3 /\
    read_be16 mem' 3 = 69 + 1 - 5 /\
    read_be16 mem' (69 + 1 + 3) = read_be16 hello_example_com 3 - (69 + 1 - 5) /\
    slice mem' 5 (69 + 1 - 5) = slice hello_example_com 5 (69 + 1 - 5) /\
    slice mem' (69 + 1 + 5) (85 - 5 - (69 + 1))
      = slice (hello_example_com ++ repeat x00 5) (69 + 1) (85 - 5 - (69 + 1)).
Proof.
  apply (splitter_writes_two_headers true (fun _ => true) hello_example_com
           80 (Some None) 0 11 (Some (example_com ++ [x00])) 69
           (repeat x00 5) 85 None);
    [vm_compute; discriminate | vm_compute; reflexivity | lia
    |vm_compute; split; discriminate | vm_compute; reflexivity].
Defined.

(** C3: after a successful parse with modify-position [M], the splitter
    run on the buffer followed by its reserved bytes, with a length that
    covers the record and the five inserted bytes, leaves two records at
    0 and at [M + 1] whose payloads, one after the other, are the payload
    of the original record, and whose length fields add up, with the 5 of
    the inserted header, to the original declared length plus 5. *)
Theorem split_round_trip (le : bool) (malloc : Z -> bool)
    (buf : list byte) (data_len : Z) (hostname : option cstring)
    (mp L : Z) (h : cstring) (M : Z) (extra : list byte) (total : Z)
    (hn : cstring) :
  data_len <= nbytes buf ->
  parse_packet malloc buf data_len hostname mp = Returned L h M -> 0 <= L ->
  5 + record_length buf 0 + 5 <= total <= nbytes (buf ++ extra) ->
  total < SIZE_MOD ->
  exists mem',
    modify_tls_header le (buf ++ extra) total hn M = Some mem' /\
    record_payload mem' 0 ++ record_payload mem' (M + 1)
      = record_payload buf 0 /\
    record_length mem' 0 + record_length mem' (M + 1) + 5
      = record_length buf 0 + 5.
Proof.
  unfold record_payload, record_length. rewrite !Z.add_0_l.
  intros Hbuf Hrun HL Htotal Hmax.
  destruct (success_split_point _ _ _ _ _ _ _ _ Hbuf Hrun HL)
    as (HM & HML & Hsplit & Hrec).
  assert (Hlen16 : read_be16 (buf ++ extra) 3 = read_be16 buf 3)
    by (apply read_be16_prefix; lia).
  destruct (modify_tls_header_correct le (buf ++ extra) total hn M)
    as (mem' & Hrun' & Hlen & Hh & Hl1 & Hb & Hh2 & Hl2 & Hc & _);
    try lia.
  exists mem'. rewrite Hlen16 in Hl2.
  split; [exact Hrun'|]. rewrite Hl1, Hl2. split; [|lia].
  set (p2 := read_be16 buf 3 - (M + 1 - 5)) in *.
  rewrite Hb.
  rewrite <- (slice_shorter mem' (M + 1 + 5) (total - 5 - (M + 1)) p2)
    by (unfold p2; lia).
  rewrite Hc, slice_shorter by (unfold p2; lia).
  replace (M + 1) with (5 + (M + 1 - 5)) at 2 by lia.
  rewrite <- slice_split by (unfold p2; lia).
  replace (M + 1 - 5 + p2) with (read_be16 buf 3) by (unfold p2; lia).
  apply slice_prefix; lia.
Qed.

Lemma split_round_trip_witness :
  exists mem',
    modify_tls_header false (hello_example_com ++ repeat xff 5) 85 None 69
    = Some mem' /\
    record_payload mem' 0 ++ record_payload mem' (69 + 1)
      = record_payload hello_example_com 0 /\
    record_length mem' 0 + record_length mem' (69 + 1) + 5
      = record_length hello_example_com 0 + 5.
Proof.
  apply (split_round_trip false (fun _ => true) hello_example_com
           80 (Some None) 0 11 (Some (example_com ++ [x00])) 69
           (repeat xff 5) 85 None);
    [vm_compute; discriminate | vm_compute; reflexivity | lia
    |vm_compute; split; discriminate | vm_compute; reflexivity].
Defined.

(** Without room for five more bytes after the split point the splitter
    leaves the buffer, whatever length it is given. *)
Lemma modify_tls_header_no_room (le : bool) (mem : list byte)
    (total : Z) (hn : cstring) (M : Z) :
  0 <= M -> M + 1 < SIZE_MOD -> nbytes mem < M + 1 + 5 ->
  modify_tls_header le mem total hn M = None.
Proof.
  intros HM Hmax Hroom. unfold modify_tls_header.
  rewrite (add_exact M 1) by lia.
  unfold memmove.
  destruct (in_range mem (M + 1) _); [|reflexivity].
  unfold write_bytes, in_range.
  match goal with
  | |- context [ 5 + (M + 1) + ?n <=? nbytes mem ] =>
      pose proof (nbytes_nonneg (slice mem (M + 1) (total -s 5 -s (M + 1))));
      destruct (Z.leb_spec (5 + (M + 1) + n) (nbytes mem)); [lia|]
  end.
  now rewrite !andb_false_r.
Qed.

(** C10, as stated, fails for a short name at the end of the record: the
    parse succeeds with [M = 61] in a record that ends at 62, and the
    splitter run on those 62 bytes alone leaves them, for every length it
    may be given: the header copy at [M + 1] needs bytes 62 to 66. *)
Lemma splitter_region_counterexample :
  parse_packet (fun _ => true) hello_short 62 (Some None) 0
  = Returned 1 (Some [x61; x00]) 61 /\
  Z.min 62 (5 + read_be16 hello_short 3) = 62 /\
  nbytes hello_short = 62 /\
  forall le total hn, modify_tls_header le hello_short total hn 61 = None.
Proof.
  split; [vm_compute; reflexivity|].
  split; [vm_compute; reflexivity|].
  split; [vm_compute; reflexivity|].
  intros le total hn. apply modify_tls_header_no_room.
  - lia.
  - rewrite size_mod_eq. lia.
  - vm_compute. reflexivity.
Qed.

(** C10, amended: when the parser succeeds with length [L] and
    modify-position [M], the name lies inside the validated record,
    [5 <= M] and [M + L <= min(data_len, 5 + declared length)], and so
    does the split point [M + 1]; the splitter's header copy and shift
    stay inside a buffer that holds [total >= M + 6] bytes, which may
    reach five bytes past the validated record. *)
Theorem hostname_inside_record (malloc : Z -> bool) (buf : list byte)
    (data_len : Z) (hostname : option cstring) (mp L : Z) (h : cstring)
    (M : Z) :
  data_len <= nbytes buf ->
  parse_packet malloc buf data_len hostname mp = Returned L h M -> 0 <= L ->
  5 <= M /\
  M + L <= Z.min data_len (5 + read_be16 buf 3) /\
  M + 1 <= Z.min data_len (5 + read_be16 buf 3) /\
  forall le extra total hn,
    M + 1 + 5 <= total <= nbytes (buf ++ extra) -> total < SIZE_MOD ->
    exists mem', modify_tls_header le (buf ++ extra) total hn M = Some mem'.
Proof.
  intros Hbuf Hrun HL.
  destruct (success_split_point _ _ _ _ _ _ _ _ Hbuf Hrun HL)
    as (HM & HML & Hsplit & Hrec).
  repeat split; try lia.
  intros le extra total hn Htotal Hmax.
  assert (Hlen16 : read_be16 (buf ++ extra) 3 = read_be16 buf 3)
    by (apply read_be16_prefix; lia).
  destruct (modify_tls_header_correct le (buf ++ extra) total hn M)
    as (mem' & Hrun' & _); try lia.
  now exists mem'.
Qed.

Lemma hostname_inside_record_witness :
  5 <= 69 /\
  69 + 11 <= Z.min 80 (5 + read_be16 hello_example_com 3) /\
  69 + 1 <= Z.min 80 (5 + read_be16 hello_example_com 3) /\
  forall le extra total hn,
    69 + 1 + 5 <= total <= nbytes (hello_example_com ++ extra) ->
    total < SIZE_MOD ->
    exists mem',
      modify_tls_header le (hello_example_com ++ extra) total hn 69
      = Some mem'.
Proof.
  apply (hostname_inside_record (fun _ => true) hello_example_com 80
           (Some None) 0 11 (Some (example_com ++ [x00])) 69);
    [vm_compute; discriminate | vm_compute; reflexivity | lia].
Defined.

(** ** Settled claims: SSL 3.0 without extensions *)

Lemma nth_byte_mid (A R : list byte) (b : byte) (i : nat) :
  i = length A -> nth_byte (A ++ b :: R) i = u8 b.
Proof.
  intros ->. unfold nth_byte. rewrite app_nth2, Nat.sub_diag by lia.
  reflexivity.
Qed.

Lemma be16_value (n : Z) :
  0 <= n < 65536 -> (n / 256) mod 256 * 256 + n mod 256 = n.
Proof.
  intros Hn. rewrite (Z.mod_small (n / 256))
    by (split; [apply Z.div_pos; lia|apply Z.div_lt_upper_bound; lia]).
  pose proof (Z.div_mod n 256). lia.
Qed.

(** C8: a well-formed SSL 3.0 ClientHello (record version 3.0) in which
    nothing follows the compression methods, or in which an empty
    extensions block follows them, is answered with NoHostname, not
    Malformed; bytes after the record do not matter. *)
Theorem sslv3_without_extensions (malloc : Z -> bool)
    (version random session_id cipher_suites compression rest
       trailing : list byte) (data_len : Z) (h : cstring) (mp : Z) :
  nbytes version = 2 -> nbytes random = 32 ->
  nbytes session_id <= 255 -> nbytes cipher_suites <= 65535 ->
  nbytes compression <= 255 ->
  rest = [] \/ rest = be16 0 ->
  nbytes (sslv3_hello version random session_id cipher_suites compression
            rest) <= 5 + 65535 ->
  nbytes (sslv3_hello version random session_id cipher_suites compression
            rest) <= data_len
    <= nbytes (sslv3_hello version random session_id cipher_suites
                 compression rest ++ trailing) ->
  exists m,
    parse_packet malloc
      (sslv3_hello version random session_id cipher_suites compression rest
         ++ trailing)
      data_len (Some h) mp
    = Returned NoHostname h m.
Proof.
  intros Hver Hrnd Hsid Hcs Hcm Hrest Hmax Hlen.
  pose proof (nbytes_nonneg session_id) as Hsid0.
  pose proof (nbytes_nonneg cipher_suites) as Hcs0.
  pose proof (nbytes_nonneg compression) as Hcm0.
  set (body := client_hello version random session_id cipher_suites
                 compression rest) in *.
  set (payload := handshake x01 body) in *.
  set (buf := sslv3_hello version random session_id cipher_suites
                compression rest ++ trailing) in *.
  set (S := nbytes session_id) in *. set (C := nbytes cipher_suites) in *.
  set (K := nbytes compression) in *.
  assert (Hbody : nbytes body = 38 + S + C + K + nbytes rest).
  { unfold body, client_hello, vec8, vec16, be16, S, C, K. len_solve. }
  assert (Hpay : nbytes payload = 4 + nbytes body).
  { unfold payload, handshake, be24. len_solve. }
  assert (Hhello : nbytes (sslv3_hello version random session_id
                             cipher_suites compression rest)
                   = 5 + nbytes payload).
  { unfold sslv3_hello, record, be16. fold body. fold payload. len_solve. }
  rewrite Hhello in Hmax, Hlen.
  assert (Hrest2 : nbytes rest = 0 \/ nbytes rest = 2)
    by (destruct Hrest as [-> | ->]; [left|right]; reflexivity).
  (* the bytes the parser reads *)
  assert (F0 : nth_byte buf 0 = 0x16) by reflexivity.
  assert (F1 : nth_byte buf 1 = 3) by reflexivity.
  assert (F2 : nth_byte buf 2 = 0) by reflexivity.
  assert (F3 : nth_byte buf 3 = (nbytes payload / 256) mod 256)
    by (apply (u8_to_byte (nbytes payload / 256))).
  assert (F4 : nth_byte buf 4 = nbytes payload mod 256)
    by (apply (u8_to_byte (nbytes payload))).
  assert (F5 : nth_byte buf 5 = 1) by reflexivity.
  assert (Hsplit : forall A b R i,
            buf = A ++ b :: R -> i = nbytes A ->
            nth_byte buf (Z.to_nat i) = u8 b).
  { intros A b R i -> ->. apply nth_byte_mid. unfold nbytes. lia. }
  set (np := nbytes payload) in *. set (nb := nbytes body) in *.
  assert (Ebuf : buf = [x16; x03; x00] ++ be16 np ++ payload ++ trailing).
  { unfold buf, sslv3_hello, record. fold body. fold payload. fold np.
    list_eq. }
  assert (Epay : payload = [x01] ++ be24 nb ++ body) by reflexivity.
  assert (Ebody : body = version ++ random ++ [to_byte S] ++ session_id
                         ++ be16 C ++ cipher_suites ++ [to_byte K]
                         ++ compression ++ rest).
  { unfold body, client_hello, vec8, vec16. fold S. fold C. fold K.
    list_eq. }
  set (front := [x16; x03; x00] ++ be16 np ++ [x01] ++ be24 nb
                  ++ version ++ random).
  assert (Hfront : nbytes front = 43).
  { unfold front, be16, be24. len_solve. }
  assert (F43 : nth_byte buf (Z.to_nat 43) = S).
  { rewrite (Hsplit front (to_byte S)
      (session_id ++ be16 C ++ cipher_suites ++ [to_byte K]
         ++ compression ++ rest ++ trailing) 43).
    - rewrite u8_to_byte. apply Z.mod_small. lia.
    - rewrite Ebuf, Epay, Ebody. unfold front. list_eq.
    - lia. }
  assert (Fc1 : nth_byte buf (Z.to_nat (43 + (1 + S))) = (C / 256) mod 256).
  { rewrite (Hsplit (front ++ [to_byte S] ++ session_id)
      (to_byte (C / 256))
      ([to_byte C] ++ cipher_suites ++ [to_byte K]
         ++ compression ++ rest ++ trailing) (43 + (1 + S))).
    - apply u8_to_byte.
    - rewrite Ebuf, Epay, Ebody. unfold front, be16 at 2. list_eq.
    - rewrite !nbytes_app, Hfront. unfold S, nbytes. simpl length. lia. }
  assert (Fc2 : nth_byte buf (Z.to_nat (43 + (1 + S) + 1)) = C mod 256).
  { rewrite (Hsplit
      (front ++ [to_byte S] ++ session_id ++ [to_byte (C / 256)])
      (to_byte C)
      (cipher_suites ++ [to_byte K] ++ compression ++ rest ++ trailing)
      (43 + (1 + S) + 1)).
    - apply u8_to_byte.
    - rewrite Ebuf, Epay, Ebody. unfold front, be16 at 2. list_eq.
    - rewrite !nbytes_app, Hfront. unfold S, nbytes. simpl length. lia. }
  assert (Fk : nth_byte buf (Z.to_nat (43 + (1 + S) + (2 + C))) = K).
  { rewrite (Hsplit
      (front ++ [to_byte S] ++ session_id ++ be16 C ++ cipher_suites)
      (to_byte K) (compression ++ rest ++ trailing)
      (43 + (1 + S) + (2 + C))).
    - rewrite u8_to_byte. apply Z.mod_small. lia.
    - rewrite Ebuf, Epay, Ebody. unfold front. list_eq.
    - rewrite !nbytes_app, Hfront, nbytes_be16. unfold S, C, nbytes.
      simpl length. lia. }
  (* run the parser *)
  assert (Hbuf : nbytes buf = 5 + np + nbytes trailing).
  { unfold buf. rewrite nbytes_app, Hhello. lia. }
  pose proof (nbytes_nonneg trailing) as Htr0.
  pose proof (be16_value (np)) as Hrl.
  pose proof (be16_value C) as HCv.
  assert (Hb3 : 0 <= (np / 256) mod 256 < 256)
    by (apply Z.mod_pos_bound; lia).
  assert (Hb4 : 0 <= np mod 256 < 256)
    by (apply Z.mod_pos_bound; lia).
  assert (Hc1 : 0 <= (C / 256) mod 256 < 256)
    by (apply Z.mod_pos_bound; lia).
  assert (Hc2 : 0 <= C mod 256 < 256) by (apply Z.mod_pos_bound; lia).
  header_reads Hlen.
  rewrite F0. change (negb (Z.land 22 128 =? 0)) with false.
  change (negb (22 =? TLS_HANDSHAKE_CONTENT_TYPE)) with false. cbv iota.
  rewrite (with_byte_at _ 1), (with_byte_at _ 2), (with_byte_at _ 3),
    (with_byte_at _ 4) by lia.
  change (Z.to_nat 1) with 1%nat. change (Z.to_nat 2) with 2%nat.
  change (Z.to_nat 3) with 3%nat. change (Z.to_nat 4) with 4%nat.
  rewrite F1, F2, F3, F4. change (3 <? 3) with false. cbv iota zeta.
  nowrap. rewrite Hrl by lia.
  unfold MIN.
  destruct (Z.ltb_spec data_len (np + 5)) as [|_]; [lia|].
  rewrite Z.ltb_irrefl.
  rewrite Z.gtb_ltb.
  destruct (Z.ltb_spec (np + 5) (5 + 1)) as [|_]; [lia|].
  rewrite (with_byte_at _ 5) by lia. change (Z.to_nat 5) with 5%nat.
  rewrite F5. unfold TLS_HANDSHAKE_TYPE_CLIENT_HELLO.
  change (negb (1 =? 1)) with false. cbv iota.
  rewrite Z.gtb_ltb.
  destruct (Z.ltb_spec (np + 5) (5 + 38 + 1)) as [|_]; [lia|].
  change (5 + 38) with 43.
  rewrite (with_byte_at _ 43) by lia. rewrite F43. nowrap.
  rewrite Z.gtb_ltb.
  destruct (Z.ltb_spec (np + 5) (43 + (1 + S) + 2)) as [|_];
    [lia|].
  rewrite (with_byte_at _ (43 + (1 + S))) by lia.
  rewrite (with_byte_at _ (43 + (1 + S) + 1)) by lia.
  rewrite Fc1, Fc2. nowrap. rewrite HCv by lia.
  rewrite Z.gtb_ltb.
  destruct (Z.ltb_spec (np + 5) (43 + (1 + S) + (2 + C) + 1))
    as [|_]; [lia|].
  rewrite (with_byte_at _ (43 + (1 + S) + (2 + C))) by lia.
  rewrite Fk. nowrap.
  change (3 =? 3) with true. change (0 =? 0) with true.
  rewrite !andb_true_r.
  set (P := 43 + (1 + S) + (2 + C) + (1 + K)).
  destruct Hrest as [Hnone | Hempty].
  - (* nothing after the compression methods *)
    assert (HP : P = np + 5)
      by (unfold P; rewrite Hpay, Hbody, Hnone; change (nbytes []) with 0;
          lia).
    rewrite <- HP, Z.eqb_refl. now exists mp.
  - (* an empty extensions block *)
    assert (HP : P + 2 = np + 5)
      by (unfold P; rewrite Hpay, Hbody, Hempty;
          change (nbytes (be16 0)) with 2; lia).
    destruct (Z.eqb_spec P (np + 5)) as [|_]; [lia|].
    assert (Hmid : nbytes (front ++ [to_byte S] ++ session_id ++ be16 C
                             ++ cipher_suites ++ [to_byte K] ++ compression)
                   = P).
    { rewrite !nbytes_app, Hfront, nbytes_be16. unfold P, S, C, K, nbytes.
      simpl length. lia. }
    assert (Fe1 : nth_byte buf (Z.to_nat P) = 0).
    { rewrite (Hsplit
        (front ++ [to_byte S] ++ session_id ++ be16 C ++ cipher_suites
           ++ [to_byte K] ++ compression)
        x00 (x00 :: trailing) P).
      - reflexivity.
      - rewrite Ebuf, Epay, Ebody, Hempty. unfold front, be16 at 3.
        list_eq.
      - now rewrite Hmid. }
    assert (Fe2 : nth_byte buf (Z.to_nat (P + 1)) = 0).
    { rewrite (Hsplit
        ((front ++ [to_byte S] ++ session_id ++ be16 C ++ cipher_suites
            ++ [to_byte K] ++ compression) ++ [x00])
        x00 trailing (P + 1)).
      - reflexivity.
      - rewrite Ebuf, Epay, Ebody, Hempty. unfold front, be16 at 3.
        list_eq.
      - rewrite nbytes_app, Hmid. reflexivity. }
    cbv iota. rewrite Z.gtb_ltb.
    destruct (Z.ltb_spec (np + 5) (P + 2)) as [|_]; [lia|].
    rewrite (with_byte_at _ P) by (unfold P; lia).
    rewrite (with_byte_at _ (P + 1)) by (unfold P; lia).
    rewrite Fe1, Fe2.
    change (0 <<s 8 +s 0) with 0.
    rewrite (add_small (P + 2) 0) by (unfold P; lia).
    rewrite Z.gtb_ltb.
    destruct (Z.ltb_spec (np + 5) (P + 2 + 0)) as [|_]; [lia|].
    exists 0. unfold parse_extensions. cbn [Z.to_nat extensions_loop].
    reflexivity.
Qed.

Lemma sslv3_without_extensions_witness :
  exists m,
    parse_packet (fun _ => true)
      (sslv3_hello [x03; x00] random32 [] [x00; x2f] [x00] (be16 0) ++ [x17])
      52 (Some None) 0
    = Returned NoHostname None m.
Proof.
  apply sslv3_without_extensions;
    try (vm_compute; reflexivity);
    try (vm_compute; discriminate);
    try (right; reflexivity);
    vm_compute; split; discriminate.
Defined.

(** * Further properties of the parser and of the splitter *)

(** ** How the parser returns *)

Lemma load_range (p : ptr) (i v : Z) : load p i = Some v -> 0 <= v <= 255.
Proof.
  unfold load. destruct (offset p + i <? 0); [discriminate|].
  destruct (nth_error (block p) (Z.to_nat (offset p + i))); [|discriminate].
  intros [= <-]. apply u8_range.
Qed.

Lemma strncpy_nbytes (n : nat) : forall src copied,
  strncpy src n = Some copied -> nbytes copied = Z.of_nat n.
Proof.
  induction n as [|n IH]; intros src copied H.
  - injection H as <-. reflexivity.
  - destruct src as [|c rest]; [discriminate|].
    cbn [strncpy] in H. destruct (u8 c =? 0).
    + injection H as <-. unfold nbytes.
      change (x00 :: repeat x00 n) with (repeat x00 (S n)).
      now rewrite repeat_length.
    + destruct (strncpy rest n) as [t|] eqn:E; [|discriminate].
      injection H as <-. apply IH in E. unfold nbytes in *.
      cbn [length]. lia.
Qed.

(** One read of a run that returned: the byte was inside the block. *)
Ltac read_in H :=
  match type of H with
  | context [ match load ?p ?i with _ => _ end ] =>
      let E := fresh "E" in
      destruct (load p i) as [?v|] eqn:E;
      [apply load_range in E|discriminate H]
  end.

Ltac returned_failure :=
  match goal with
  | H : Returned _ _ _ = Returned _ _ _ |- _ =>
      injection H as <- <- <-; left; autounfold with codes; tauto
  end.

Section ReturnSites.

Variable malloc : Z -> bool.

Lemma server_name_loop_returned (fuel : nat) :
  forall data data_len old_pos pos h0 r h m,
  server_name_loop malloc fuel data data_len old_pos pos h0 = Returned r h m ->
  returned_as malloc h0 0 r h m.
Proof.
  induction fuel as [|fuel IH];
    intros data data_len old_pos pos h0 r h m H; [discriminate|].
  cbn [server_name_loop] in H. unfold with_byte in H. cbv zeta in H.
  destruct (pos +s 3 <? data_len).
  - repeat read_in H.
    destruct (_ >? data_len); [returned_failure|].
    read_in H.
    destruct (v1 =? 0); [|exact (IH _ _ _ _ _ _ _ _ H)].
    assert (Hlen : (v <<s 8) +s v0 = v * 256 + v0) by (nowrap; reflexivity).
    rewrite Hlen in H.
    destruct (malloc (v * 256 + v0 +s 1)) eqn:Hm.
    + destruct (strncpy _ _) as [copied|] eqn:Hcopy; [|discriminate].
      injection H as <- <- <-. right; right.
      rewrite int_of_size_small by lia.
      rewrite add_small in Hm by lia.
      repeat split; try lia; [exact Hm|].
      eexists. split; [reflexivity|].
      apply strncpy_nbytes in Hcopy.
      rewrite nbytes_app, Hcopy. change (nbytes [x00]) with 1. lia.
    + injection H as <- <- <-. right; left.
      repeat split. exists (v * 256 + v0 + 1).
      rewrite add_small in Hm by lia. split; [lia|exact Hm].
  - destruct (negb _); returned_failure.
Qed.

Lemma extensions_loop_returned (fuel : nat) :
  forall data data_len old_pos pos h0 r h m,
  extensions_loop malloc fuel data data_len old_pos pos h0 = Returned r h m ->
  returned_as malloc h0 0 r h m.
Proof.
  induction fuel as [|fuel IH];
    intros data data_len old_pos pos h0 r h m H; [discriminate|].
  cbn [extensions_loop] in H. unfold short_and, with_byte in H.
  cbv zeta in H.
  destruct (pos +s 4 <=? data_len).
  - repeat read_in H.
    destruct (v1 =? 0); [|exact (IH _ _ _ _ _ _ _ _ H)].
    read_in H.
    destruct (v2 =? 0); [|exact (IH _ _ _ _ _ _ _ _ H)].
    destruct (_ >? data_len); [returned_failure|].
    exact (server_name_loop_returned _ _ _ _ _ _ _ _ _ H).
  - destruct (negb _); returned_failure.
Qed.

Lemma weaken_returned_as (h0 : cstring) (mp r : Z) (h : cstring) (m : Z) :
  returned_as malloc h0 0 r h m -> returned_as malloc h0 mp r h m.
Proof.
  unfold returned_as. intros [(Hr & Hh & Hm)|[H|H] ]; [left|right; left|right; right];
    auto. repeat split; auto. right. destruct Hm; assumption.
Qed.

Lemma parse_tls_header_returned (data : ptr) (data_len : Z) (h0 : cstring)
    (mp r : Z) (h : cstring) (m : Z) :
  parse_tls_header malloc data data_len (Some h0) mp = Returned r h m ->
  returned_as malloc h0 mp r h m.
Proof.
  unfold parse_tls_header, short_and, with_byte. cbv zeta. intros H.
  repeat match type of H with
         | Returned _ _ _ = Returned _ _ _ =>
             injection H as <- <- <-; left; autounfold with codes; tauto
         | match load ?p ?i with _ => _ end = _ =>
             let E := fresh "E" in
             destruct (load p i) as [?v|] eqn:E;
             [apply load_range in E|discriminate H]
         | (if ?c then _ else _) = _ => destruct c
         end.
  all: apply weaken_returned_as;
    exact (extensions_loop_returned _ _ _ _ _ _ _ _ _ H).
Qed.

End ReturnSites.

(** X1: whatever the buffer, the pointer and the supplied length, a
    result the parser returns is one of the five documented negative
    codes or a hostname length between 0 and 65535. *)
Theorem result_code_range (malloc : Z -> bool) (data : ptr) (data_len : Z)
    (hostname : option cstring) (mp r : Z) (h : cstring) (m : Z) :
  parse_tls_header malloc data data_len hostname mp = Returned r h m ->
  r = Incomplete \/ r = NoHostname \/ r = InvalidHostnamePointer
  \/ r = AllocationFailure \/ r = Malformed \/ 0 <= r <= 65535.
Proof.
  intros H. destruct hostname as [h0|].
  - apply parse_tls_header_returned in H.
    destruct H as [(Hr & _)|[(Hr & _)|(Hr & _)] ]; tauto.
  - injection H as <- _ _. tauto.
Qed.

Lemma result_code_range_witness :
  11 = Incomplete \/ 11 = NoHostname \/ 11 = InvalidHostnamePointer
  \/ 11 = AllocationFailure \/ 11 = Malformed \/ 0 <= 11 <= 65535.
Proof.
  apply (result_code_range (fun _ => true) (mkptr hello_example_com 0) 80
           (Some None) 0 11 (Some (example_com ++ [x00])) 69).
  vm_compute. reflexivity.
Defined.

(** X2: a failure never leaves an allocated block behind.  When the
    parser, called with a hostname slot, returns a negative code, the slot
    holds what it held before the call, or NULL after an allocation
    failure; the modify-position is untouched or reset to 0. *)
Theorem failure_leaves_hostname_slot (malloc : Z -> bool) (data : ptr)
    (data_len : Z) (h0 : cstring) (mp r : Z) (h : cstring) (m : Z) :
  parse_tls_header malloc data data_len (Some h0) mp = Returned r h m ->
  r < 0 ->
  (h = h0 \/ (r = AllocationFailure /\ h = None)) /\ (m = mp \/ m = 0).
Proof.
  intros H Hneg. apply parse_tls_header_returned in H.
  destruct H as [(Hr & Hh & Hm)|[(Hr & Hh & Hm & _)|(Hr & _)] ].
  - tauto.
  - subst m. tauto.
  - lia.
Qed.

Lemma failure_leaves_hostname_slot_witness :
  (None = Some [x41] \/ (AllocationFailure = AllocationFailure /\ @None (list byte) = None))
  /\ (0 = 7 \/ 0 = 0).
Proof.
  apply (failure_leaves_hostname_slot (fun _ => false)
           (mkptr hello_example_com 0) 80 (Some [x41]) 7 AllocationFailure
           None 0).
  - vm_compute. reflexivity.
  - vm_compute. reflexivity.
Defined.

(** X3: a hostname of [r] bytes is returned only if [malloc (r + 1)]
    succeeded, and AllocationFailure is returned only if some [malloc] of
    1 to 65536 bytes failed: with an allocator that always succeeds the
    parser never answers AllocationFailure, with one that always fails it
    never returns a hostname. *)
Theorem hostname_needs_malloc (malloc : Z -> bool) (data : ptr)
    (data_len : Z) (h0 : cstring) (mp r : Z) (h : cstring) (m : Z) :
  parse_tls_header malloc data data_len (Some h0) mp = Returned r h m ->
  (0 <= r -> malloc (r + 1) = true) /\
  (r = AllocationFailure -> exists n, 1 <= n <= 65536 /\ malloc n = false).
Proof.
  intros H. apply parse_tls_header_returned in H.
  destruct H as [(Hr & _)|[(Hr & _ & _ & Hn)|(Hr & Hm & _)] ].
  - split; [intros H0|intros ->];
      (destruct Hr as [Hr|[Hr|Hr] ]; autounfold with codes in *; lia).
  - split; [autounfold with codes in *; lia|intros _; exact Hn].
  - split; [intros _; exact Hm|autounfold with codes; lia].
Qed.

Lemma hostname_needs_malloc_witness :
  (0 <= 11 -> (fun n => n <=? 12) (11 + 1) = true) /\
  (11 = AllocationFailure ->
   exists n, 1 <= n <= 65536 /\ (fun n => n <=? 12) n = false).
Proof.
  apply (hostname_needs_malloc (fun n => n <=? 12)
           (mkptr hello_example_com 0) 80 None 0 11
           (Some (example_com ++ [x00])) 69).
  vm_compute. reflexivity.
Defined.

(** ** Bytes after the record *)

(** Past the record header the supplied length only matters up to the
    declared end of the record. *)
Lemma data_len_clamped (malloc : Z -> bool) (buf : list byte)
    (data_len : Z) (hostname : option cstring) (mp : Z) :
  5 + read_be16 buf 3 <= data_len <= nbytes buf ->
  parse_tls_header malloc (mkptr buf 0) data_len hostname mp
  = parse_tls_header malloc (mkptr buf 0) (5 + read_be16 buf 3) hostname mp.
Proof.
  intros Hlen. rewrite read_be16_nth_byte in *.
  pose proof (nth_byte_range buf 3) as H3.
  pose proof (nth_byte_range buf 4) as H4.
  unfold parse_tls_header, TLS_HEADER_LEN, short_and.
  destruct hostname as [h|]; [|reflexivity].
  destruct (Z.ltb_spec data_len 5) as [|_]; [lia|].
  destruct (Z.ltb_spec (5 + (nth_byte buf 3 * 256 + nth_byte buf 4)) 5)
    as [|_]; [lia|].
  rewrite !(with_byte_at _ 0), !(with_byte_at _ 1), !(with_byte_at _ 2),
    !(with_byte_at _ 3), !(with_byte_at _ 4) by lia.
  change (Z.to_nat 3) with 3%nat. change (Z.to_nat 4) with 4%nat.
  cbv beta zeta. nowrap. unfold MIN.
  destruct (Z.ltb_spec data_len (nth_byte buf 3 * 256 + nth_byte buf 4 + 5))
    as [|_]; [lia|].
  replace (5 + (nth_byte buf 3 * 256 + nth_byte buf 4))
    with (nth_byte buf 3 * 256 + nth_byte buf 4 + 5) by lia.
  rewrite !Z.ltb_irrefl. reflexivity.
Qed.

(** X4: the parser looks at one record only.  When the buffer holds the
    whole declared record, the result, the hostname output and the
    modify-position are those of the parser run on the record alone:
    bytes that follow the record, and a supplied length that counts them,
    change nothing. *)
Theorem bytes_after_record_ignored (malloc : Z -> bool) (buf : list byte)
    (data_len : Z) (hostname : option cstring) (mp : Z) :
  5 + read_be16 buf 3 <= data_len <= nbytes buf ->
  parse_packet malloc buf data_len hostname mp
  = parse_packet malloc (firstn (Z.to_nat (5 + read_be16 buf 3)) buf)
                 (5 + read_be16 buf 3) hostname mp.
Proof.
  intros Hlen. unfold parse_packet.
  rewrite (data_len_clamped malloc buf data_len) by exact Hlen.
  set (n := 5 + read_be16 buf 3) in *.
  set (rec := firstn (Z.to_nat n) buf).
  assert (Hrec : n <= nbytes rec).
  { unfold rec, nbytes in *. rewrite length_firstn. lia. }
  pose proof (parse_tls_header_parsed malloc rec n hostname mp Hrec) as Hp.
  destruct (parse_tls_header malloc (mkptr rec 0) n hostname mp)
    as [| |r h m] eqn:Hrun; [contradiction|contradiction|].
  rewrite <- (firstn_skipn (Z.to_nat n) buf). fold rec.
  now apply parse_tls_header_extend.
Qed.

Lemma bytes_after_record_ignored_witness :
  parse_packet (fun _ => true) (hello_example_com ++ [x17; x03; x03]) 82
               (Some None) 0
  = parse_packet (fun _ => true)
      (firstn (Z.to_nat (5 + read_be16 (hello_example_com ++ [x17; x03; x03]) 3))
              (hello_example_com ++ [x17; x03; x03]))
      (5 + read_be16 (hello_example_com ++ [x17; x03; x03]) 3) (Some None) 0.
Proof.
  apply bytes_after_record_ignored. vm_compute. split; discriminate.
Defined.

(** ** The record splitter, on its own *)

Lemma firstn_app_nbytes (A R : list byte) (n : nat) :
  n = length A -> firstn n (A ++ R) = A.
Proof.
  intros ->. rewrite firstn_app, Nat.sub_diag, firstn_all, firstn_O.
  apply app_nil_r.
Qed.

(** X5: the splitter turns one record into two.  On a buffer that holds
    a record, whatever follows it and five spare bytes, with [data_len]
    counting all of them, a split at offset [M - 4] of the payload leaves
    in the buffer a record with the first [M - 4] payload bytes, then a
    record with the same type and version and the remaining payload
    bytes, then what followed the original record. *)
Theorem split_record_in_two (le : bool) (ct v1 v2 : byte)
    (payload trailing spare : list byte) (hn : cstring) (M : Z) :
  nbytes payload <= 65535 ->
  4 <= M -> M - 4 <= nbytes payload ->
  nbytes spare = 5 ->
  nbytes (record ct v1 v2 payload ++ trailing ++ spare) < SIZE_MOD ->
  modify_tls_header le (record ct v1 v2 payload ++ trailing ++ spare)
    (nbytes (record ct v1 v2 payload ++ trailing ++ spare)) hn M
  = Some (record ct v1 v2 (firstn (Z.to_nat (M - 4)) payload)
            ++ record ct v1 v2 (skipn (Z.to_nat (M - 4)) payload)
            ++ trailing).
Proof.
  intros Hpay HM Hk Hspare Hmax.
  pose proof (nbytes_nonneg payload) as Hp0.
  set (k := Z.to_nat (M - 4)).
  set (B := firstn k payload). set (R := skipn k payload ++ trailing).
  assert (HB : nbytes B = M - 4).
  { unfold B, k, nbytes in *. rewrite length_firstn. lia. }
  assert (Hsk : nbytes (skipn k payload) = nbytes payload - (M - 4)).
  { unfold k, nbytes in *. rewrite length_skipn. lia. }
  set (X := firstn 5 (R ++ spare)). set (Y := skipn 5 (R ++ spare)).
  assert (HRs : nbytes (R ++ spare) = nbytes R + 5)
    by (rewrite nbytes_app; lia).
  pose proof (nbytes_nonneg R) as HR0.
  assert (HX : nbytes X = 5).
  { unfold X, nbytes in *. rewrite length_firstn. lia. }
  assert (HY : nbytes Y = nbytes R).
  { unfold Y, nbytes in *. rewrite length_skipn. lia. }
  assert (Hmem : record ct v1 v2 payload ++ trailing ++ spare
                 = [ct; v1; v2; to_byte (nbytes payload / 256);
                    to_byte (nbytes payload)] ++ B ++ X ++ Y ++ []).
  { unfold record, be16. cbn [app]. do 5 f_equal.
    rewrite app_nil_r. unfold X, Y. rewrite firstn_skipn. unfold R, B.
    rewrite <- (firstn_skipn k payload) at 1. list_eq. }
  assert (Htotal : nbytes (record ct v1 v2 payload ++ trailing ++ spare)
                   = 5 + nbytes B + 5 + nbytes Y).
  { rewrite Hmem. len_solve. }
  rewrite Htotal in *. rewrite Hmem.
  rewrite modify_tls_header_split by lia.
  f_equal. rewrite !u8_to_byte, be16_value by lia.
  rewrite sub_exact by (rewrite size_mod_eq; lia).
  replace (firstn (length Y) (X ++ Y)) with R.
  - unfold record. fold B. rewrite HB, Hsk. unfold R.
    replace (nbytes B) with (M - 4) by lia.
    rewrite app_nil_r. list_eq.
  - unfold X, Y. rewrite firstn_skipn. symmetry.
    apply firstn_app_nbytes. fold Y. unfold nbytes in HY. lia.
Qed.

Lemma split_record_in_two_witness :
  modify_tls_header true
    (record x16 x03 x01 [x01; x02; x03; x04] ++ [x17] ++ [xaa; xaa; xaa; xaa; xaa])
    (nbytes (record x16 x03 x01 [x01; x02; x03; x04] ++ [x17]
               ++ [xaa; xaa; xaa; xaa; xaa])) None 5
  = Some (record x16 x03 x01 (firstn (Z.to_nat (5 - 4)) [x01; x02; x03; x04])
            ++ record x16 x03 x01 (skipn (Z.to_nat (5 - 4)) [x01; x02; x03; x04])
            ++ [x17]).
Proof.
  apply split_record_in_two; vm_compute; reflexivity || discriminate.
Defined.

Lemma in_range_inv (mem : list byte) (a n : Z) :
  in_range mem a n = true -> 0 <= a /\ 0 <= n /\ a + n <= nbytes mem.
Proof.
  unfold in_range. intros H.
  apply andb_true_iff in H as [H H3]. apply andb_true_iff in H as [H1 H2].
  apply Z.leb_le in H1, H2, H3. auto.
Qed.

(** The splitter completes only with room for the copied header. *)
Lemma splitter_completes_iff_aux (le : bool) (mem : list byte) (total : Z)
    (hn : cstring) (M : Z) :
  0 <= M < SIZE_MOD -> 0 <= total < SIZE_MOD -> nbytes mem < SIZE_MOD ->
  modify_tls_header le mem total hn M <> None ->
  4 <= M /\ M + 6 <= total <= nbytes mem.
Proof.
  intros HM Htotal Hmem.
  intros Hrun. unfold modify_tls_header in Hrun.
  set (split := M +s 1) in *. set (n := total -s 5 -s split) in *.
  destruct (memmove mem (5 + split) split n) as [mem1|] eqn:Hmv;
    [|now contradiction Hrun].
  cbn [bind] in Hrun.
  destruct (memcpy mem1 split 0 5) as [mem2|] eqn:Hcp;
    [|now contradiction Hrun].
  clear Hrun.
  unfold memcpy in Hcp.
  destruct ((split + 5 <=? 0) || (0 + 5 <=? split)) eqn:Hov;
    [|discriminate].
  unfold memmove in Hmv.
  destruct (in_range mem split n) eqn:Hsrc; [|discriminate].
  apply in_range_inv in Hsrc as (Hs0 & Hn0 & Hsn).
  unfold write_bytes in Hmv.
  destruct (in_range mem (5 + split) (nbytes (slice mem split n)))
    eqn:Hdst; [|discriminate].
  apply in_range_inv in Hdst as (_ & _ & Hdn).
  rewrite slice_nbytes in Hdn by lia.
  apply orb_true_iff in Hov as [Hov|Hov]; apply Z.leb_le in Hov;
    [lia|].
  clear Hmv Hcp. revert Hs0 Hn0 Hsn Hdn Hov.
  unfold n, split, Mach.add, Mach.sub, size_t. rewrite size_mod_eq in *.
  intros. Z.div_mod_to_equations. lia.
Qed.

(** X6: the splitter stays inside its buffer exactly when the split
    point lies after the first header and [data_len] counts five bytes
    past it without exceeding the buffer: [4 <= modify_pos] and
    [modify_pos + 6 <= data_len <= size of the buffer].  Otherwise the
    byte count of the shift wraps around, or the header copy overlaps its
    source. *)
Theorem splitter_completes_iff (le : bool) (mem : list byte) (total : Z)
    (hn : cstring) (M : Z) :
  0 <= M < SIZE_MOD -> 0 <= total < SIZE_MOD -> nbytes mem < SIZE_MOD ->
  (modify_tls_header le mem total hn M <> None
   <-> 4 <= M /\ M + 6 <= total <= nbytes mem).
Proof.
  intros HM Htotal Hmem. split.
  - now apply splitter_completes_iff_aux.
  - intros (H4 & H6 & Hcap).
    destruct (cut_at_split mem M total H4 (conj H6 Hcap))
      as (h0 & h1 & h2 & a & b & B & X & Y & E & -> & HB & HX & HY).
    rewrite modify_tls_header_split by lia. discriminate.
Qed.

Lemma splitter_completes_iff_witness :
  modify_tls_header true (hello_example_com ++ repeat x00 5) 85 None 69
    <> None
  <-> 4 <= 69 /\ 69 + 6 <= 85 <= nbytes (hello_example_com ++ repeat x00 5).
Proof.
  apply splitter_completes_iff; vm_compute; split; discriminate || reflexivity.
Defined.

Lemma read_be16_be16_mod (v : Z) (R : list byte) :
  read_be16 (be16 v ++ R) 0 = v mod 65536.
Proof.
  unfold read_be16, be16.
  change (nth (Z.to_nat 0) ([to_byte (v / 256); to_byte v] ++ R) x00)
    with (to_byte (v / 256)).
  change (nth (Z.to_nat (0 + 1)) ([to_byte (v / 256); to_byte v] ++ R) x00)
    with (to_byte v).
  rewrite !u8_to_byte. change 65536 with (256 * 256).
  rewrite Z.rem_mul_r by lia. lia.
Qed.

(** X7: the two length fields the splitter writes are 16-bit values.
    Whenever it completes, the first record's field holds [M + 1 - 5]
    modulo 65536 and the second one the declared length minus
    [M + 1 - 5], modulo 65536: a split point beyond the declared end of
    the record wraps the second field around instead of failing. *)
Theorem splitter_length_fields (le : bool) (mem mem' : list byte)
    (total : Z) (hn : cstring) (M : Z) :
  0 <= M < SIZE_MOD -> 0 <= total < SIZE_MOD -> nbytes mem < SIZE_MOD ->
  modify_tls_header le mem total hn M = Some mem' ->
  read_be16 mem' 3 = (M + 1 - 5) mod 65536 /\
  read_be16 mem' (M + 1 + 3) = (read_be16 mem 3 - (M + 1 - 5)) mod 65536.
Proof.
  intros HM Htotal Hmem Hrun.
  assert (Hok : 4 <= M /\ M + 6 <= total <= nbytes mem).
  { apply (splitter_completes_iff_aux le mem total hn M); auto.
    rewrite Hrun. discriminate. }
  destruct Hok as (H4 & H6 & Hcap).
  destruct (cut_at_split mem M total H4 (conj H6 Hcap))
    as (h0 & h1 & h2 & a & b & B & X & Y & E & -> & HB & HX & HY).
  rewrite modify_tls_header_split in Hrun by lia.
  match type of Hrun with
  | Some ?l = _ => set (res := l) in Hrun
  end.
  assert (Hres : mem' = res) by congruence.
  rewrite Hres. unfold res. clear Hrun Hres res.
  change (read_be16 ([h0; h1; h2; a; b] ++ B ++ X ++ Y ++ E) 3)
    with (u8 a * 256 + u8 b).
  split.
  - change 3 with (3 + 0) at 1.
    rewrite (read_be16_app_skip [h0; h1; h2]) by (reflexivity || lia).
    rewrite read_be16_be16_mod. f_equal. lia.
  - replace ([h0; h1; h2] ++ be16 (nbytes B) ++ B ++ [h0; h1; h2]
               ++ be16 (u8 a * 256 + u8 b -s nbytes B)
               ++ firstn (length Y) (X ++ Y) ++ E)
      with (([h0; h1; h2] ++ be16 (nbytes B) ++ B ++ [h0; h1; h2])
              ++ (be16 (u8 a * 256 + u8 b -s nbytes B)
                    ++ firstn (length Y) (X ++ Y) ++ E))
      by list_eq.
    replace (M + 1 + 3) with (M + 1 + 3 + 0) by lia.
    rewrite (read_be16_app_skip _ _ (M + 1 + 3))
      by (try lia; unfold be16; len_solve).
    rewrite read_be16_be16_mod, HB.
    unfold Mach.sub, size_t. rewrite size_mod_eq.
    Z.div_mod_to_equations. lia.
Qed.

Lemma splitter_length_fields_witness :
  read_be16 split_beyond_record 3 = (10 + 1 - 5) mod 65536 /\
  read_be16 split_beyond_record (10 + 1 + 3)
  = (read_be16 (record x16 x03 x01 [x01; x02] ++ repeat x00 20) 3
     - (10 + 1 - 5)) mod 65536.
Proof.
  apply (splitter_length_fields true
           (record x16 x03 x01 [x01; x02] ++ repeat x00 20)
           split_beyond_record 27 None 10);
    vm_compute; reflexivity || (split; discriminate || reflexivity).
Defined.

(** ** Moving the start of the block

    A run whose pointer lies [nbytes pre] bytes into a block is the run on
    the block without those bytes. *)

Lemma add_nonneg (a b : Z) : 0 <= a +s b.
Proof.
  unfold Mach.add, size_t. rewrite size_mod_eq.
  apply Z.mod_pos_bound. lia.
Qed.

Lemma load_rebase (pre b : list byte) (off i : Z) :
  0 <= off + i ->
  load (mkptr (pre ++ b) (nbytes pre + off)) i = load (mkptr b off) i.
Proof.
  intros H. unfold load. cbn [offset block].
  pose proof (nbytes_nonneg pre) as Hp.
  destruct (Z.ltb_spec (nbytes pre + off + i) 0); [lia|].
  destruct (Z.ltb_spec (off + i) 0); [lia|].
  f_equal. unfold nbytes in *.
  replace (Z.to_nat (Z.of_nat (length pre) + off + i))
    with (length pre + Z.to_nat (off + i))%nat by lia.
  rewrite nth_error_app2 by lia. f_equal. lia.
Qed.

Lemma with_byte_rebase (pre b : list byte) (off i : Z)
    (k k' : Z -> outcome) :
  0 <= off + i -> (forall v, k v = k' v) ->
  with_byte (mkptr (pre ++ b) (nbytes pre + off)) i k
  = with_byte (mkptr b off) i k'.
Proof.
  intros H Hk. unfold with_byte. rewrite load_rebase by exact H.
  destruct (load (mkptr b off) i); auto.
Qed.

Lemma bytes_from_rebase (pre b : list byte) (off : Z) :
  0 <= off ->
  bytes_from (mkptr (pre ++ b) (nbytes pre + off)) = bytes_from (mkptr b off).
Proof.
  intros H. unfold bytes_from. cbn [offset block].
  pose proof (nbytes_nonneg pre) as Hp.
  destruct (Z.ltb_spec (nbytes pre + off) 0); [lia|].
  destruct (Z.ltb_spec off 0); [lia|].
  unfold nbytes. replace (Z.to_nat (Z.of_nat (length pre) + off))
    with (Z.to_nat off + length pre)%nat by lia.
  rewrite <- skipn_skipn. f_equal.
  rewrite skipn_app, Nat.sub_diag, skipn_all. reflexivity.
Qed.

Ltac rebase_step :=
  match goal with
  | |- with_byte _ _ _ = with_byte _ _ _ =>
      apply with_byte_rebase;
      [first [ lia
             | match goal with
               | |- 0 <= _ + (?a +s ?b) =>
                   pose proof (add_nonneg a b); lia
               end ]
      |intros ?v]
  | |- (if ?c then _ else _) = (if ?c then _ else _) => destruct c
  | |- ?x = ?x => reflexivity
  end.

Section Rebase.

Variable malloc : Z -> bool.

Lemma server_name_loop_rebase (fuel : nat) :
  forall pre b off data_len old_pos pos hostname,
  0 <= off -> 0 <= pos ->
  server_name_loop malloc fuel (mkptr (pre ++ b) (nbytes pre + off))
                   data_len old_pos pos hostname
  = server_name_loop malloc fuel (mkptr b off) data_len old_pos pos hostname.
Proof.
  induction fuel as [|fuel IH];
    intros pre b off data_len old_pos pos hostname Hoff Hpos; [reflexivity|].
  cbn [server_name_loop]. cbv zeta.
  repeat rebase_step.
  - unfold ptr_add. cbn [offset block].
    replace (nbytes pre + off + pos + 3) with (nbytes pre + (off + pos + 3))
      by lia.
    rewrite bytes_from_rebase by lia. reflexivity.
  - apply IH; [lia|apply add_nonneg].
Qed.

Lemma extensions_loop_rebase (fuel : nat) :
  forall pre b off data_len old_pos pos hostname,
  0 <= off -> 0 <= pos ->
  extensions_loop malloc fuel (mkptr (pre ++ b) (nbytes pre + off))
                  data_len old_pos pos hostname
  = extensions_loop malloc fuel (mkptr b off) data_len old_pos pos hostname.
Proof.
  induction fuel as [|fuel IH];
    intros pre b off data_len old_pos pos hostname Hoff Hpos; [reflexivity|].
  cbn [extensions_loop]. unfold short_and. cbv zeta.
  repeat rebase_step.
  - unfold parse_server_name_extension, ptr_add. cbn [offset block].
    replace (nbytes pre + off + pos + 4) with (nbytes pre + (off + pos + 4))
      by lia.
    apply server_name_loop_rebase; lia.
  - apply IH; [lia|apply add_nonneg].
  - apply IH; [lia|apply add_nonneg].
Qed.

End Rebase.

(** ** The scanners on well-formed lists *)

Lemma with_byte_split (buf A R : list byte) (b : byte) (i : Z)
    (k : Z -> outcome) :
  buf = A ++ b :: R -> i = nbytes A ->
  with_byte (mkptr buf 0) i k = k (u8 b).
Proof.
  intros -> ->. rewrite with_byte_at.
  - f_equal. apply nth_byte_mid. unfold nbytes. lia.
  - rewrite nbytes_app. unfold nbytes. cbn [length]. lia.
Qed.




Lemma be16_bytes_value (n : Z) :
  0 <= n <= 65535 ->
  u8 (to_byte (n / 256)) * 256 + u8 (to_byte n) = n.
Proof. intros H. rewrite !u8_to_byte. apply be16_value. lia. Qed.

Section Scanners.

Variable malloc : Z -> bool.



End Scanners.



Section ExtensionScanner.

Variable malloc : Z -> bool.



End ExtensionScanner.

(** ** From the record header to the extensions block *)

Lemma with_byte_cong (p : ptr) (i : Z) (k k' : Z -> outcome) :
  (forall v, 0 <= v <= 255 -> k v = k' v) ->
  with_byte p i k = with_byte p i k'.
Proof.
  intros Hk. unfold with_byte. destruct (load p i) as [v|] eqn:E; [|reflexivity].
  apply Hk. eapply load_range, E.
Qed.

Lemma with_byte_shift (pre b : list byte) (i : Z) (k : Z -> outcome) :
  0 <= i ->
  with_byte (mkptr (pre ++ b) 0) (nbytes pre + i) k = with_byte (mkptr b 0) i k.
Proof.
  intros Hi. unfold with_byte, load. cbn [offset block].
  pose proof (nbytes_nonneg pre) as Hp.
  destruct (Z.ltb_spec (0 + (nbytes pre + i)) 0); [lia|].
  destruct (Z.ltb_spec (0 + i) 0); [lia|].
  unfold nbytes in *.
  replace (Z.to_nat (0 + (Z.of_nat (length pre) + i)))
    with (length pre + Z.to_nat (0 + i))%nat by lia.
  rewrite nth_error_app2 by lia.
  replace (length pre + Z.to_nat (0 + i) - length pre)%nat
    with (Z.to_nat (0 + i)) by lia.
  reflexivity.
Qed.

(** On a well-formed ClientHello record the parser walks the fixed part,
    the session id, the cipher suites and the compression methods and
    arrives at what follows them, [rest], at index
    [43 + (1 + S) + (2 + C) + (1 + K)]. *)
Lemma hello_reaches_rest (malloc : Z -> bool) (vmajor vminor : byte)
    (version random session_id cipher_suites compression rest
       trailing : list byte) (data_len : Z) (h : cstring) (mp : Z) :
  3 <= u8 vmajor ->
  nbytes version = 2 -> nbytes random = 32 ->
  nbytes session_id <= 255 -> nbytes cipher_suites <= 65535 ->
  nbytes compression <= 255 ->
  nbytes (hello_record vmajor vminor version random session_id
            cipher_suites compression rest) <= 5 + 65535 ->
  nbytes (hello_record vmajor vminor version random session_id
            cipher_suites compression rest) <= data_len
    <= nbytes (hello_record vmajor vminor version random session_id
                 cipher_suites compression rest ++ trailing) ->
  parse_packet malloc
    (hello_record vmajor vminor version random session_id cipher_suites
       compression rest ++ trailing) data_len (Some h) mp
  = let tl := rest ++ trailing in
    let P := 43 + (1 + nbytes session_id) + (2 + nbytes cipher_suites)
             + (1 + nbytes compression) in
    if (nbytes rest =? 0) && (u8 vmajor =? 3) && (u8 vminor =? 0) then
      Returned NoHostname h mp
    else if nbytes rest <? 2 then Returned Malformed h mp
    else
      with_byte (mkptr tl 0) 0 (fun hi =>
      with_byte (mkptr tl 0) 1 (fun lo =>
      if nbytes rest <? 2 + (hi * 256 + lo) then Returned Malformed h mp
      else parse_extensions malloc (mkptr tl 2) (hi * 256 + lo) h (P + 2))).
Proof.
  intros Hvmaj Hver Hrnd Hsid Hcs Hcm Hmax Hlen.
  pose proof (nbytes_nonneg session_id) as Hsid0.
  pose proof (nbytes_nonneg cipher_suites) as Hcs0.
  pose proof (nbytes_nonneg compression) as Hcm0.
  pose proof (nbytes_nonneg rest) as Hrest0.
  set (body := client_hello version random session_id cipher_suites
                 compression rest) in *.
  set (payload := handshake x01 body) in *.
  set (hello := hello_record vmajor vminor version random session_id
                  cipher_suites compression rest) in *.
  set (buf := hello ++ trailing) in *.
  set (S := nbytes session_id) in *. set (C := nbytes cipher_suites) in *.
  set (K := nbytes compression) in *.
  assert (Hbody : nbytes body = 38 + S + C + K + nbytes rest).
  { unfold body, client_hello, vec8, vec16, be16, S, C, K. len_solve. }
  assert (Hpay : nbytes payload = 4 + nbytes body).
  { unfold payload, handshake, be24. len_solve. }
  assert (Hhello : nbytes hello = 5 + nbytes payload).
  { unfold hello, hello_record, record, be16. fold body. fold payload.
    len_solve. }
  rewrite Hhello in Hmax, Hlen.
  assert (F0 : nth_byte buf 0 = 0x16) by reflexivity.
  assert (F1 : nth_byte buf 1 = u8 vmajor) by reflexivity.
  assert (F2 : nth_byte buf 2 = u8 vminor) by reflexivity.
  assert (F3 : nth_byte buf 3 = (nbytes payload / 256) mod 256)
    by (apply (u8_to_byte (nbytes payload / 256))).
  assert (F4 : nth_byte buf 4 = nbytes payload mod 256)
    by (apply (u8_to_byte (nbytes payload))).
  assert (F5 : nth_byte buf 5 = 1) by reflexivity.
  assert (Hsplit : forall A b R i,
            buf = A ++ b :: R -> i = nbytes A ->
            nth_byte buf (Z.to_nat i) = u8 b).
  { intros A b R i -> ->. apply nth_byte_mid. unfold nbytes. lia. }
  set (np := nbytes payload) in *. set (nb := nbytes body) in *.
  assert (Ebuf : buf = [x16; vmajor; vminor] ++ be16 np ++ payload
                         ++ trailing).
  { unfold buf, hello, hello_record, record. fold body. fold payload.
    fold np. list_eq. }
  assert (Epay : payload = [x01] ++ be24 nb ++ body) by reflexivity.
  assert (Ebody : body = version ++ random ++ [to_byte S] ++ session_id
                         ++ be16 C ++ cipher_suites ++ [to_byte K]
                         ++ compression ++ rest).
  { unfold body, client_hello, vec8, vec16. fold S. fold C. fold K.
    list_eq. }
  set (front := [x16; vmajor; vminor] ++ be16 np ++ [x01] ++ be24 nb
                  ++ version ++ random).
  assert (Hfront : nbytes front = 43).
  { unfold front, be16, be24. len_solve. }
  assert (F43 : nth_byte buf (Z.to_nat 43) = S).
  { rewrite (Hsplit front (to_byte S)
      (session_id ++ be16 C ++ cipher_suites ++ [to_byte K]
         ++ compression ++ rest ++ trailing) 43).
    - rewrite u8_to_byte. apply Z.mod_small. lia.
    - rewrite Ebuf, Epay, Ebody. unfold front. list_eq.
    - lia. }
  assert (Fc1 : nth_byte buf (Z.to_nat (43 + (1 + S))) = (C / 256) mod 256).
  { rewrite (Hsplit (front ++ [to_byte S] ++ session_id)
      (to_byte (C / 256))
      ([to_byte C] ++ cipher_suites ++ [to_byte K]
         ++ compression ++ rest ++ trailing) (43 + (1 + S))).
    - apply u8_to_byte.
    - rewrite Ebuf, Epay, Ebody. unfold front, be16 at 2. list_eq.
    - rewrite !nbytes_app, Hfront. unfold S, nbytes. simpl length. lia. }
  assert (Fc2 : nth_byte buf (Z.to_nat (43 + (1 + S) + 1)) = C mod 256).
  { rewrite (Hsplit
      (front ++ [to_byte S] ++ session_id ++ [to_byte (C / 256)])
      (to_byte C)
      (cipher_suites ++ [to_byte K] ++ compression ++ rest ++ trailing)
      (43 + (1 + S) + 1)).
    - apply u8_to_byte.
    - rewrite Ebuf, Epay, Ebody. unfold front, be16 at 2. list_eq.
    - rewrite !nbytes_app, Hfront. unfold S, nbytes. simpl length. lia. }
  assert (Fk : nth_byte buf (Z.to_nat (43 + (1 + S) + (2 + C))) = K).
  { rewrite (Hsplit
      (front ++ [to_byte S] ++ session_id ++ be16 C ++ cipher_suites)
      (to_byte K) (compression ++ rest ++ trailing)
      (43 + (1 + S) + (2 + C))).
    - rewrite u8_to_byte. apply Z.mod_small. lia.
    - rewrite Ebuf, Epay, Ebody. unfold front. list_eq.
    - rewrite !nbytes_app, Hfront, nbytes_be16. unfold S, C, nbytes.
      simpl length. lia. }
  assert (Hbuf : nbytes buf = 5 + np + nbytes trailing).
  { unfold buf. rewrite nbytes_app, Hhello. lia. }
  pose proof (nbytes_nonneg trailing) as Htr0.
  pose proof (be16_value np) as Hrl.
  pose proof (be16_value C) as HCv.
  pose proof (u8_range vmajor) as Hvr. pose proof (u8_range vminor) as Hvr2.
  assert (Hb3 : 0 <= (np / 256) mod 256 < 256)
    by (apply Z.mod_pos_bound; lia).
  assert (Hb4 : 0 <= np mod 256 < 256)
    by (apply Z.mod_pos_bound; lia).
  assert (Hc1 : 0 <= (C / 256) mod 256 < 256)
    by (apply Z.mod_pos_bound; lia).
  assert (Hc2 : 0 <= C mod 256 < 256) by (apply Z.mod_pos_bound; lia).
  cbv zeta.
  header_reads Hlen.
  rewrite F0. change (negb (Z.land 22 128 =? 0)) with false.
  change (negb (22 =? TLS_HANDSHAKE_CONTENT_TYPE)) with false. cbv iota.
  rewrite (with_byte_at _ 1), (with_byte_at _ 2), (with_byte_at _ 3),
    (with_byte_at _ 4) by lia.
  change (Z.to_nat 1) with 1%nat. change (Z.to_nat 2) with 2%nat.
  change (Z.to_nat 3) with 3%nat. change (Z.to_nat 4) with 4%nat.
  rewrite F1, F2, F3, F4.
  destruct (Z.ltb_spec (u8 vmajor) 3) as [|_]; [lia|]. cbv zeta.
  nowrap. rewrite Hrl by lia.
  unfold MIN.
  destruct (Z.ltb_spec data_len (np + 5)) as [|_]; [lia|].
  rewrite Z.ltb_irrefl.
  rewrite Z.gtb_ltb.
  destruct (Z.ltb_spec (np + 5) (5 + 1)) as [|_]; [lia|].
  rewrite (with_byte_at _ 5) by lia. change (Z.to_nat 5) with 5%nat.
  rewrite F5. unfold TLS_HANDSHAKE_TYPE_CLIENT_HELLO.
  change (negb (1 =? 1)) with false. cbv iota.
  rewrite Z.gtb_ltb.
  destruct (Z.ltb_spec (np + 5) (5 + 38 + 1)) as [|_]; [lia|].
  change (5 + 38) with 43.
  rewrite (with_byte_at _ 43) by lia. rewrite F43. nowrap.
  rewrite Z.gtb_ltb.
  destruct (Z.ltb_spec (np + 5) (43 + (1 + S) + 2)) as [|_];
    [lia|].
  rewrite (with_byte_at _ (43 + (1 + S))) by lia.
  rewrite (with_byte_at _ (43 + (1 + S) + 1)) by lia.
  rewrite Fc1, Fc2. nowrap. rewrite HCv by lia.
  rewrite Z.gtb_ltb.
  destruct (Z.ltb_spec (np + 5) (43 + (1 + S) + (2 + C) + 1))
    as [|_]; [lia|].
  rewrite (with_byte_at _ (43 + (1 + S) + (2 + C))) by lia.
  rewrite Fk. nowrap.
  set (P := 43 + (1 + S) + (2 + C) + (1 + K)).
  assert (HE : np + 5 = P + nbytes rest) by (unfold P; lia).
  rewrite HE.
  set (whole := front ++ [to_byte S] ++ session_id ++ be16 C
                  ++ cipher_suites ++ [to_byte K] ++ compression).
  assert (Hwhole : nbytes whole = P).
  { unfold whole. rewrite !nbytes_app, Hfront, nbytes_be16.
    unfold P, S, C, K, nbytes. simpl length. lia. }
  assert (Etl : buf = whole ++ rest ++ trailing).
  { rewrite Ebuf, Epay, Ebody. unfold whole, front. list_eq. }
  replace (P =? P + nbytes rest) with (nbytes rest =? 0)
    by (destruct (Z.eqb_spec (nbytes rest) 0), (Z.eqb_spec P (P + nbytes rest));
        reflexivity || lia).
  destruct ((nbytes rest =? 0) && (u8 vmajor =? 3) && (u8 vminor =? 0));
    [reflexivity|].
  rewrite Z.gtb_ltb.
  destruct (Z.ltb_spec (P + nbytes rest) (P + 2)) as [|Hroom];
    destruct (Z.ltb_spec (nbytes rest) 2) as [|Hroom']; try lia;
    [reflexivity|].
  rewrite Etl, <- Hwhole.
  rewrite (with_byte_shift whole (rest ++ trailing) 0) by lia.
  apply with_byte_cong. intros hi Hhi.
  rewrite (with_byte_shift whole (rest ++ trailing) 1) by lia.
  apply with_byte_cong. intros lo Hlo.
  rewrite Hwhole. nowrap. rewrite ?(add_small (P + 2)) by (unfold P; lia).
  rewrite Z.gtb_ltb.
  destruct (Z.ltb_spec (P + nbytes rest) (P + 2 + (hi * 256 + lo)));
    destruct (Z.ltb_spec (nbytes rest) (2 + (hi * 256 + lo))); try lia;
    [reflexivity|].
  unfold ptr_add, parse_extensions. cbn [offset block].
  replace (0 + (P + 2)) with (nbytes whole + 2) by lia.
  apply extensions_loop_rebase; lia.
Qed.

(** ** The parser on well-formed ClientHello records *)

Section WellFormed.

Variable malloc : Z -> bool.

(** With an extensions block, the parser hands the block to the
    extension scan. *)
Lemma hello_extensions (vmajor vminor : byte)
    (version random session_id cipher_suites compression exts
       trailing : list byte) (data_len : Z) (h : cstring) (mp : Z) :
  3 <= u8 vmajor ->
  hello_fields_ok version random session_id cipher_suites compression ->
  nbytes exts <= 65535 ->
  nbytes (hello_record vmajor vminor version random session_id
            cipher_suites compression (vec16 exts)) <= 5 + 65535 ->
  nbytes (hello_record vmajor vminor version random session_id
            cipher_suites compression (vec16 exts)) <= data_len
    <= nbytes (hello_record vmajor vminor version random session_id
                 cipher_suites compression (vec16 exts) ++ trailing) ->
  parse_packet malloc
    (hello_record vmajor vminor version random session_id cipher_suites
       compression (vec16 exts) ++ trailing) data_len (Some h) mp
  = parse_extensions malloc (mkptr (exts ++ trailing) 0) (nbytes exts) h
      (extensions_start session_id cipher_suites compression).
Proof.
  intros Hvmaj (Hver & Hrnd & Hsid & Hcs & Hcm) Hexts Hmax Hlen.
  rewrite hello_reaches_rest by assumption. cbv zeta.
  pose proof (nbytes_nonneg exts) as He0.
  assert (Hrest : nbytes (vec16 exts) = 2 + nbytes exts)
    by (unfold vec16, be16; len_solve).
  rewrite Hrest.
  destruct (Z.eqb_spec (2 + nbytes exts) 0) as [|_]; [lia|].
  cbn [andb].
  destruct (Z.ltb_spec (2 + nbytes exts) 2) as [|_]; [lia|].
  set (tl := vec16 exts ++ trailing).
  rewrite (with_byte_split tl [] (to_byte (nbytes exts) :: exts ++ trailing)
             (to_byte (nbytes exts / 256)))
    by (unfold tl, vec16, be16; list_eq || reflexivity).
  rewrite (with_byte_split tl [to_byte (nbytes exts / 256)]
             (exts ++ trailing) (to_byte (nbytes exts)))
    by (unfold tl, vec16, be16; list_eq || reflexivity).
  rewrite be16_bytes_value by lia.
  destruct (Z.ltb_spec (2 + nbytes exts) (2 + nbytes exts)) as [|_]; [lia|].
  unfold parse_extensions, extensions_start.
  replace tl with (be16 (nbytes exts) ++ exts ++ trailing)
    by (unfold tl, vec16; list_eq).
  rewrite <- (extensions_loop_rebase malloc _ (be16 (nbytes exts))
                (exts ++ trailing) 0) by lia.
  reflexivity.
Qed.



End WellFormed.

Lemma hello_record_layout (vmajor vminor : byte)
    (version random session_id cipher_suites compression rest : list byte) :
  hello_fields_ok version random session_id cipher_suites compression ->
  exists whole,
    hello_record vmajor vminor version random session_id cipher_suites
      compression rest = whole ++ rest /\
    nbytes whole + 2
    = extensions_start session_id cipher_suites compression.
Proof.
  intros (Hver & Hrnd & Hsid & Hcs & Hcm).
  unfold hello_record, record, handshake, client_hello.
  set (np := nbytes (x01 :: _)). set (nb := nbytes (version ++ _)).
  exists ([x16; vmajor; vminor] ++ be16 np ++ [x01] ++ be24 nb ++ version
            ++ random ++ vec8 session_id ++ vec16 cipher_suites
            ++ vec8 compression).
  split; [list_eq|]. clearbody np nb.
  unfold extensions_start, vec8, vec16, be16, be24. len_solve.
Qed.

Section WellFormedHello.

Variable malloc : Z -> bool.
Variables vmajor vminor : byte.
Variables version random session_id cipher_suites compression : list byte.
Variable trailing : list byte.
Variable h : cstring.
Variable mp : Z.

Hypothesis Hvmajor : 3 <= u8 vmajor.
Hypothesis Hfields :
  hello_fields_ok version random session_id cipher_suites compression.

Local Abbreviation hello rest :=
  (hello_record vmajor vminor version random session_id cipher_suites
     compression rest).
Local Abbreviation start :=
  (extensions_start session_id cipher_suites compression).

Lemma start_range : 49 <= start <= 49 + 255 + 65535 + 255.
Proof.
  unfold extensions_start.
  destruct Hfields as (_ & _ & Hsid & Hcs & Hcm).
  pose proof (nbytes_nonneg session_id).
  pose proof (nbytes_nonneg cipher_suites).
  pose proof (nbytes_nonneg compression). lia.
Qed.












End WellFormedHello.

(** ** The properties of well-formed records at sample records *)

Ltac by_eval :=
  repeat first [split | apply Forall_cons | apply Forall_nil];
  vm_compute; first [reflexivity | discriminate | intros [_ ?]; discriminate].









(** ** The handshake header *)

(** X16: only a ClientHello is parsed.  When the buffer holds a whole
    handshake record of version major at least 3 whose payload is empty
    or does not start with handshake type 1, the parser answers
    Malformed and leaves the hostname slot and the modify-position as
    they were. *)
Theorem not_client_hello_malformed (malloc : Z -> bool) (buf : list byte)
    (data_len : Z) (h : cstring) (mp : Z) :
  5 + read_be16 buf 3 <= data_len <= nbytes buf ->
  nth_byte buf 0 = 0x16 ->
  3 <= nth_byte buf 1 ->
  read_be16 buf 3 = 0 \/ nth_byte buf 5 <> 1 ->
  parse_packet malloc buf data_len (Some h) mp = Returned Malformed h mp.
Proof.
  intros Hlen Hct Hver Hhs. rewrite read_be16_nth_byte in *.
  pose proof (nth_byte_range buf 3) as H3.
  pose proof (nth_byte_range buf 4) as H4.
  unfold parse_packet, parse_tls_header, TLS_HEADER_LEN, short_and.
  destruct (Z.ltb_spec data_len 5) as [|_]; [lia|].
  rewrite !(with_byte_at _ 0), !(with_byte_at _ 1), !(with_byte_at _ 2),
    !(with_byte_at _ 3), !(with_byte_at _ 4) by lia.
  change (Z.to_nat 0) with 0%nat. change (Z.to_nat 1) with 1%nat.
  change (Z.to_nat 3) with 3%nat. change (Z.to_nat 4) with 4%nat.
  rewrite Hct.
  change (negb (Z.land 22 128 =? 0)) with false.
  change (negb (22 =? TLS_HANDSHAKE_CONTENT_TYPE)) with false. cbv iota.
  destruct (Z.ltb_spec (nth_byte buf 1) 3) as [|_]; [lia|].
  cbv beta zeta. nowrap. unfold MIN.
  destruct (Z.ltb_spec data_len (nth_byte buf 3 * 256 + nth_byte buf 4 + 5))
    as [|_]; [lia|].
  rewrite Z.ltb_irrefl.
  destruct (Z.gtb_spec (5 + 1) (nth_byte buf 3 * 256 + nth_byte buf 4 + 5))
    as [|Hsome]; [reflexivity|].
  rewrite (with_byte_at _ 5) by lia. change (Z.to_nat 5) with 5%nat.
  destruct Hhs as [Hnone|Hhs]; [lia|].
  unfold TLS_HANDSHAKE_TYPE_CLIENT_HELLO.
  destruct (Z.eqb_spec (nth_byte buf 5) 1) as [|_]; [contradiction|].
  reflexivity.
Qed.

Lemma not_client_hello_malformed_witness :
  parse_packet (fun _ => true) [x16; x03; x03; x00; x01; x02; x17] 7
               (Some None) 7
  = Returned Malformed None 7.
Proof.
  apply not_client_hello_malformed;
    vm_compute;
    first [reflexivity | discriminate | split; discriminate
          | right; discriminate].
Defined.

(** ** The extensions block inside the record *)

Section ExtensionsBlock.

Variable malloc : Z -> bool.
Variables vmajor vminor : byte.
Variables version random session_id cipher_suites compression : list byte.
Variable trailing : list byte.
Variable h : cstring.
Variable mp : Z.

Hypothesis Hvmajor : 3 <= u8 vmajor.
Hypothesis Hfields :
  hello_fields_ok version random session_id cipher_suites compression.

Local Abbreviation hello rest :=
  (hello_record vmajor vminor version random session_id cipher_suites
     compression rest).
Local Abbreviation start :=
  (extensions_start session_id cipher_suites compression).

(** The extension scan is given the declared extensions block, whatever
    follows it in the record. *)
Lemma hello_extensions_extra (exts extra : list byte) (data_len : Z) :
  nbytes (hello (vec16 exts ++ extra)) <= 5 + 65535 ->
  nbytes (hello (vec16 exts ++ extra)) <= data_len
    <= nbytes (hello (vec16 exts ++ extra) ++ trailing) ->
  parse_packet malloc (hello (vec16 exts ++ extra) ++ trailing) data_len
    (Some h) mp
  = parse_extensions malloc (mkptr (exts ++ extra ++ trailing) 0)
      (nbytes exts) h start.
Proof.
  intros Hmax Hlen.
  destruct (hello_record_layout vmajor vminor version random session_id
              cipher_suites compression (vec16 exts ++ extra) Hfields)
    as (whole & Ewhole & Hwhole).
  pose proof (start_range version random session_id cipher_suites
                compression Hfields) as Hstart.
  pose proof (nbytes_nonneg exts) as He0.
  pose proof (nbytes_nonneg extra) as Hx0.
  assert (Hrest : nbytes (vec16 exts ++ extra)
                  = 2 + nbytes exts + nbytes extra)
    by (unfold vec16, be16; len_solve).
  assert (Hexts : nbytes exts <= 65535).
  { rewrite Ewhole, nbytes_app, Hrest in Hmax.
    lia. }
  destruct Hfields as (Hver & Hrnd & Hsid & Hcs & Hcm).
  rewrite hello_reaches_rest by assumption. cbv zeta.
  rewrite Hrest.
  destruct (Z.eqb_spec (2 + nbytes exts + nbytes extra) 0) as [|_]; [lia|].
  cbn [andb].
  destruct (Z.ltb_spec (2 + nbytes exts + nbytes extra) 2) as [|_]; [lia|].
  set (tl := (vec16 exts ++ extra) ++ trailing).
  rewrite (with_byte_split tl []
             (to_byte (nbytes exts) :: exts ++ extra ++ trailing)
             (to_byte (nbytes exts / 256)))
    by (unfold tl, vec16, be16; list_eq || reflexivity).
  rewrite (with_byte_split tl [to_byte (nbytes exts / 256)]
             (exts ++ extra ++ trailing) (to_byte (nbytes exts)))
    by (unfold tl, vec16, be16; list_eq || reflexivity).
  rewrite be16_bytes_value by lia.
  destruct (Z.ltb_spec (2 + nbytes exts + nbytes extra) (2 + nbytes exts))
    as [|_]; [lia|].
  unfold parse_extensions, extensions_start.
  replace tl with (be16 (nbytes exts) ++ exts ++ extra ++ trailing)
    by (unfold tl, vec16; list_eq).
  rewrite <- (extensions_loop_rebase malloc _ (be16 (nbytes exts))
                (exts ++ extra ++ trailing) 0) by lia.
  reflexivity.
Qed.

(** X17: the extension scan stops at the declared end of the extensions
    block.  Bytes that follow the block inside the record change nothing:
    the result, the hostname output and the modify-position are those of
    the record that ends with the block, with the same bytes after it. *)
Theorem bytes_after_extensions_ignored (exts extra : list byte)
    (data_len : Z) :
  nbytes (hello (vec16 exts ++ extra)) <= 5 + 65535 ->
  nbytes (hello (vec16 exts ++ extra)) <= data_len
    <= nbytes (hello (vec16 exts ++ extra) ++ trailing) ->
  parse_packet malloc (hello (vec16 exts ++ extra) ++ trailing) data_len
    (Some h) mp
  = parse_packet malloc (hello (vec16 exts) ++ extra ++ trailing) data_len
      (Some h) mp.
Proof.
  intros Hmax Hlen.
  rewrite hello_extensions_extra by assumption.
  destruct (hello_record_layout vmajor vminor version random session_id
              cipher_suites compression (vec16 exts ++ extra) Hfields)
    as (whole & Ewhole & Hwhole).
  destruct (hello_record_layout vmajor vminor version random session_id
              cipher_suites compression (vec16 exts) Hfields)
    as (whole' & Ewhole' & Hwhole').
  pose proof (nbytes_nonneg extra) as Hx0.
  pose proof (nbytes_nonneg whole) as Hw0.
  pose proof (nbytes_nonneg exts) as He0.
  assert (Hsize : nbytes (hello (vec16 exts ++ extra))
                  = nbytes (hello (vec16 exts)) + nbytes extra).
  { rewrite Ewhole, Ewhole', !nbytes_app. lia. }
  assert (Hall : nbytes (hello (vec16 exts ++ extra) ++ trailing)
                 = nbytes (hello (vec16 exts) ++ extra ++ trailing)).
  { rewrite !nbytes_app. lia. }
  assert (Hexts : nbytes exts <= 65535).
  { pose proof (start_range version random session_id cipher_suites
                  compression Hfields) as Hstart.
    rewrite Ewhole, !nbytes_app in Hmax. unfold vec16 in Hmax.
    rewrite nbytes_app, nbytes_be16 in Hmax. lia. }
  symmetry. apply hello_extensions; try assumption; lia.
Qed.


End ExtensionsBlock.

Lemma bytes_after_extensions_ignored_witness :
  parse_packet (fun _ => true)
    (hello_record x03 x01 [x03; x03] random32 [] [x00; x2f] [x00]
       (vec16 (sni_extension example_com) ++ [xaa; xbb]) ++ [x17]) 74
    (Some None) 0
  = parse_packet (fun _ => true)
      (hello_record x03 x01 [x03; x03] random32 [] [x00; x2f] [x00]
         (vec16 (sni_extension example_com)) ++ [xaa; xbb] ++ [x17]) 74
      (Some None) 0.
Proof.
  apply (bytes_after_extensions_ignored (fun _ => true) x03 x01 [x03; x03]
           random32 [] [x00; x2f] [x00] [x17] None 0); by_eval.
Defined.

